(** * The download cache of the Conan client

    A shallow embedding of [conans/client/downloaders/download_cache.py]:
    the path helpers, the backup-sources sidecar update
    ([update_backup_sources_json]) and the selection of backup sources to
    upload ([get_backup_sources_files_to_upload]), followed by the
    properties of the sidecar merge and of the upload selection. *)

From Stdlib Require Import Ascii String ZArith.
From stdpp Require Import base option list strings gmap.

Local Open Scope string_scope.
Local Open Scope Z_scope.
Local Open Scope list_scope.

#[local] Set Warnings "-clear-no-such-hyp".

(** ** Python strings *)

Module PyStr.

(** [s.startswith(p)]. *)
Definition startswith (s p : string) : bool := String.prefix p s.

(** [s.endswith(p)]: the last [len(p)] characters of [s] are [p]. *)
Definition endswith (s p : string) : bool :=
  let n := String.length s in
  let m := String.length p in
  (m <=? n)%nat && String.eqb (String.substring (n - m) m s) p.

(** The part of [s] before its first ["/"]. *)
Fixpoint first_component (s : string) : string :=
  match s with
  | EmptyString => EmptyString
  | String c s' =>
      if Ascii.eqb c "/"%char then EmptyString
      else String c (first_component s')
  end.

End PyStr.

(** ** Exceptions *)

Inductive exn : Type :=
| ConanException (msg : string)
| JSONDecodeError
| OSError.

Inductive result (A : Type) : Type :=
| Ok (a : A)
| Raise (e : exn).
Arguments Ok {A} a.
Arguments Raise {A} e.

#[global] Instance result_ret : MRet result := λ A a, Ok a.
#[global] Instance result_bind : MBind result :=
  λ A B f m, match m with Ok a => f a | Raise e => Raise e end.

(** ** Python dictionaries

    A [dict] keeps its items in insertion order; keys are strings. *)

Module PyDict.

Definition dict (V : Type) : Type := list (string * V).

Section Ops.
Context {V : Type}.

(** [d.get(k)], [None] when the key is absent. *)
Fixpoint get (k : string) (d : dict V) : option V :=
  match d with
  | [] => None
  | (k', v) :: d' => if String.eqb k k' then Some v else get k d'
  end.

(** [d[k] = v]: replaces the value of an existing key where it stands,
    a new key goes to the end. *)
Fixpoint set (k : string) (v : V) (d : dict V) : dict V :=
  match d with
  | [] => [(k, v)]
  | (k', v') :: d' =>
      if String.eqb k k' then (k', v) :: d' else (k', v') :: set k v d'
  end.

(** [d.setdefault(k, v)]: the value stored at [k], after storing [v]
    there when the key was absent; returned with the dictionary. *)
Definition setdefault (k : string) (v : V) (d : dict V) : V * dict V :=
  match get k d with
  | Some x => (x, d)
  | None => (v, set k v d)
  end.

Definition keys (d : dict V) : list string := d.*1.

End Ops.

End PyDict.

(** ** The sidecar document and the file system *)

(** The JSON document [{"references": {ref: [url, ...]}, "timestamp": t}]. *)
Record summary : Type := Summary {
  references : PyDict.dict (list string);
  timestamp : Z
}.

(** What a file holds.  [json.dumps] followed by [json.loads] is the
    identity on documents of the sidecar schema, so such a file is kept in
    parsed form; [Bytes] is any content that [json.loads] rejects. *)
Inductive file : Type :=
| Bytes
| Json (doc : summary).

(** The file system maps the path of each regular file to its content;
    a directory exists when some file lies below it. *)
Abbreviation filesystem := (gmap string file).

Module Os.

(** [os.path.join(a, b)] of posixpath. *)
Definition path_join (a b : string) : string :=
  if PyStr.startswith b "/" then b
  else if String.eqb a "" || PyStr.endswith a "/" then a +:+ b
  else a +:+ "/" +:+ b.

Definition dir_prefix (d : string) : string :=
  if PyStr.endswith d "/" then d else d +:+ "/".

(** The entry of directory [d] that [p] is, or lies below. *)
Definition child_name (d p : string) : option string :=
  let dp := dir_prefix d in
  if PyStr.startswith p dp then
    let rest :=
      String.substring (String.length dp)
                       (String.length p - String.length dp) p in
    let name := PyStr.first_component rest in
    if String.eqb name "" then None else Some name
  else None.

(** The names of the entries of [d], each once. *)
Definition children (fs : filesystem) (d : string) : list string :=
  remove_dups (omap (child_name d) (map_to_list fs).*1).

Definition path_isdir (fs : filesystem) (d : string) : bool :=
  match children fs d with [] => false | _ => true end.

(** [os.path.exists(p)]. *)
Definition path_exists (fs : filesystem) (p : string) : bool :=
  bool_decide (is_Some (fs !! p)) || path_isdir fs p.

(** [os.listdir(d)]: fails when [d] is not a directory. *)
Definition listdir (fs : filesystem) (d : string) : result (list string) :=
  if path_isdir fs d then Ok (children fs d) else Raise OSError.

End Os.

(** Modelled from the spec: [conans.util.files.load] is missing from the
    sources; it reads the whole content of the file at a path (section 1:
    reading a document is a given primitive), and fails on anything that is
    not a regular file. *)
Definition load (fs : filesystem) (p : string) : result file :=
  match fs !! p with
  | Some f => Ok f
  | None => Raise OSError
  end.

(** Modelled from the spec: [conans.util.files.save] is missing from the
    sources; section 4.3 has it persist the full document by a whole-file
    overwrite. *)
Definition save (fs : filesystem) (p : string) (content : file) : filesystem :=
  <[p := content]> fs.

Definition json_loads (content : file) : result summary :=
  match content with
  | Json doc => Ok doc
  | Bytes => Raise JSONDecodeError
  end.

Definition json_dumps (doc : summary) : file := Json doc.

(** ** The download cache *)

Record DownloadCache : Type := { _path : string }.

Definition _LOCKS : string := "locks".
Definition _SOURCE_BACKUP : string := "s".
Definition _CONAN_CACHE : string := "c".

Definition source_path (self : DownloadCache) (sha256 : string) : string :=
  Os.path_join (Os.path_join (_path self) _SOURCE_BACKUP) sha256.

(** The conanfile as the update sees it: [conanfile_ref] is
    [str(conanfile.ref)], and [None] when the attribute [ref] is absent. *)
Record ConanFile : Type := { conanfile_ref : option string }.

(** The [urls] argument: one URL, or a list (or tuple) of URLs. *)
Inductive urls_arg : Type :=
| OneUrl (url : string)
| UrlList (urls : list string).

(** [existing_urls.extend(url for url in urls if url not in existing_urls)]:
    the generator is consumed while the list grows, so each test
    [url not in existing_urls] sees the URLs appended before it. *)
Definition extend_new (existing_urls urls : list string) : list string :=
  fold_left
    (λ existing url,
       if bool_decide (url ∈ existing) then existing else existing ++ [url])
    urls existing_urls.

Definition summary_key_of (conanfile : ConanFile) : string :=
  match conanfile_ref conanfile with
  | Some ref => ref
  | None => "unknown"
  end.

Definition urls_to_list (urls : urls_arg) : list string :=
  match urls with
  | UrlList l => l
  | OneUrl url => [url]
  end.

(** The document the update starts from: the sidecar when it exists, a
    fresh one otherwise.  [now] is the value [timestamp_now()] returns when
    it is called. *)
Definition load_summary (fs : filesystem) (summary_path : string) (now : Z)
    : result summary :=
  if Os.path_exists fs summary_path
  then content ← load fs summary_path; json_loads content
  else mret {| references := []; timestamp := now |}.

(** [existing_urls] is the list held by the dictionary, so extending it
    changes the document; the two messages sent to [conanfile.output] have
    no effect on the result and are left out. *)
Definition update_backup_sources_json
    (fs : filesystem) (cached_path : string) (conanfile : ConanFile)
    (urls : urls_arg) (now : Z) : result filesystem :=
  let summary_path := cached_path +:+ ".json" in
  doc ← load_summary fs summary_path now;
  let summary_key := summary_key_of conanfile in
  let urls := urls_to_list urls in
  let '(existing_urls, refs) :=
    PyDict.setdefault summary_key [] (references doc) in
  let existing_urls := extend_new existing_urls urls in
  let doc := {| references := PyDict.set summary_key existing_urls refs;
                timestamp := timestamp doc |} in
  mret (save fs summary_path (json_dumps doc)).

(** ** The selection of backup sources to upload *)

(** Modelled from the spec: the package list ([PackagesList], missing from
    the sources) supplies, per reference, an "upload" flag and a mapping of
    binary-package identifiers to per-revision "upload" flags (section 6).
    [ref_upload] is [ref.get("upload")] and [ref_packages] the value under
    ["packages"], both [None] when the key is absent; a reference is keyed
    by its textual form [str(k)]. *)
Record prev_info : Type := { prev_upload : bool }.
Record package_info : Type := { revisions : PyDict.dict prev_info }.
Record ref_info : Type := {
  ref_upload : option bool;
  ref_packages : option (PyDict.dict package_info)
}.
Definition PackagesList : Type := list (string * ref_info).

(** Truth value of an optional flag: [None] and [False] are false. *)
Definition truthy (flag : option bool) : bool := default false flag.

Section Selection.

Variable fs : filesystem.
Variable excluded_urls : list string.
Variable package_list : option PackagesList.

Definition has_excluded_urls (backup_urls : list string) : bool :=
  forallb
    (λ url, existsb (λ excluded_url, PyStr.startswith url excluded_url)
                    excluded_urls)
    backup_urls.

Definition should_upload_sources (package : package_info) : bool :=
  existsb prev_upload (revisions package).*2.

(** The set [all_refs], filled from the items of [package_list.refs()]. *)
Definition collect_refs : gset string :=
  match package_list with
  | None => ∅
  | Some items =>
      fold_left
        (λ (all_refs : gset string) '(k, ref),
           let packages := (default [] (ref_packages ref)).*2 in
           if truthy (ref_upload ref)
              || existsb should_upload_sources packages
           then all_refs ∪ {[ k ]}
           else all_refs)
        items ∅
  end.

Variable all_refs : gset string.

(** The condition under which a reference of a sidecar selects its blob. *)
Definition qualifies (ref : string) (urls : list string) : bool :=
  negb (has_excluded_urls urls)
  && match package_list with
     | None => true
     | Some _ => bool_decide (ref ∈ all_refs)
     end.

(** The loop over [refs.items()] for one blob: the two paths are
    appended at the first reference that qualifies, and the loop is left
    there. *)
Fixpoint scan_references (metadata_path blob_path : string)
    (items : PyDict.dict (list string))
    (files_to_upload : list string) : list string :=
  match items with
  | [] => files_to_upload
  | (ref, urls) :: items' =>
      if qualifies ref urls
      then (files_to_upload ++ [metadata_path]) ++ [blob_path]
      else scan_references metadata_path blob_path items' files_to_upload
  end.

Variable path_backups : string.

Definition missing_metadata (blob_path : string) : exn :=
  ConanException ("Missing metadata file for backup source " +:+ blob_path).

(** The loop over [os.listdir(path_backups)]. *)
Fixpoint scan_backups (names : list string)
    (files_to_upload : list string) : result (list string) :=
  match names with
  | [] => Ok files_to_upload
  | path :: names' =>
      if negb (PyStr.endswith path ".json") then
        let blob_path := Os.path_join path_backups path in
        let metadata_path := blob_path +:+ ".json" in
        if negb (Os.path_exists fs metadata_path)
        then Raise (missing_metadata blob_path)
        else
          content ← load fs metadata_path;
          metadata ← json_loads content;
          let refs := references metadata in
          scan_backups names'
            (scan_references metadata_path blob_path refs files_to_upload)
      else scan_backups names' files_to_upload
  end.

End Selection.

Definition get_backup_sources_files_to_upload
    (fs : filesystem) (self : DownloadCache)
    (excluded_urls : option (list string))
    (package_list : option PackagesList) : result (list string) :=
  let path_backups := Os.path_join (_path self) _SOURCE_BACKUP in
  if negb (Os.path_exists fs path_backups) then Ok []
  else
    let excluded_urls := default [] excluded_urls in
    let all_refs := collect_refs package_list in
    names ← Os.listdir fs path_backups;
    scan_backups fs excluded_urls package_list all_refs path_backups names [].

(** A cache with two blobs.  The first is known under references that are
    not in the selection below; the second under three, of which the
    first has URLs of the excluded mirror only. *)
Definition demo_fs : filesystem :=
  {[ "/r/s/h1" := Bytes;
     "/r/s/h1.json" :=
       Json (Summary [("unknown", ["http://y/a"]);
                      ("other/0.1", ["http://y/a"])] 1);
     "/r/s/h2" := Bytes;
     "/r/s/h2.json" :=
       Json (Summary [("unknown", ["http://x/b"]);
                      ("pkg/1.0", ["http://x/b"; "http://y/b"]);
                      ("dep/2.0", ["http://y/b"])] 2) ]}.

(** A selection in which only [pkg/1.0] has something to upload, the
    second revision of its binary package. *)
Definition demo_selection : PackagesList :=
  [("pkg/1.0",
    {| ref_upload := None;
       ref_packages :=
         Some [("pid1",
                {| revisions := [("prev1", {| prev_upload := false |});
                                 ("prev2", {| prev_upload := true |})] |})]
    |});
   ("dep/2.0",
    {| ref_upload := Some false;
       ref_packages :=
         Some [("pid2",
                {| revisions := [("prev1", {| prev_upload := false |})] |})]
    |})].

(** A cache that holds sidecars only, one of them not even JSON. *)
Definition orphan_fs : filesystem :=
  {[ "/r/s/h1.json" := Bytes;
     "/r/s/h2.json" := Json (Summary [("pkg/1.0", ["http://y/a"])] 1) ]}.

(** A cache whose first blob has lost its sidecar. *)
Definition broken_fs : filesystem :=
  {[ "/r/s/h1" := Bytes;
     "/r/s/h2" := Bytes;
     "/r/s/h2.json" := Json (Summary [("pkg/1.0", ["http://y/a"])] 1) ]}.

(** A cache whose first blob has a sidecar that is not JSON and whose
    second blob has no sidecar. *)
Definition corrupt_fs : filesystem :=
  {[ "/r/s/a" := Bytes; "/r/s/a.json" := Bytes; "/r/s/b" := Bytes ]}.

(** A cache whose first blob has no sidecar and whose second blob has a
    sidecar that is not JSON. *)
Definition late_corrupt_fs : filesystem :=
  {[ "/r/s/a" := Bytes; "/r/s/b" := Bytes; "/r/s/b.json" := Bytes ]}.

(** A cache with one blob, fetched for [pkg/1.0] from one mirror. *)
Definition single_fs : filesystem :=
  {[ "/r/s/h" := Bytes;
     "/r/s/h.json" := Json (Summary [("pkg/1.0", ["http://x/a"])] 1) ]}.

Definition upload_ref : ref_info :=
  {| ref_upload := Some true; ref_packages := None |}.

(** ** Definitions used to state the properties *)

(** Successive calls of [update_backup_sources_json] with the same
    arguments, one per reading of the clock. *)
Fixpoint update_repeatedly (fs : filesystem) (cached_path : string)
    (conanfile : ConanFile) (urls : urls_arg) (clock : list Z)
    : result filesystem :=
  match clock with
  | [] => Ok fs
  | now :: clock' =>
      fs' ← update_backup_sources_json fs cached_path conanfile urls now;
      update_repeatedly fs' cached_path conanfile urls clock'
  end.

(** The URLs of a list in the order in which they are first seen. *)
Fixpoint first_seen (urls : list string) : list string :=
  match urls with
  | [] => []
  | url :: urls' => url :: filter (λ u, u ≠ url) (first_seen urls')
  end.

(** The merge in the words of the specification: the existing list,
    then the URLs not already present, in first-seen order. *)
Definition merge_spec (existing_urls urls : list string) : list string :=
  existing_urls ++ first_seen (filter (λ u, u ∉ existing_urls) urls).

(** The URL list a sidecar records for a reference key. *)
Definition stored_urls (fs : filesystem) (cached_path key : string)
    : option (list string) :=
  match fs !! (cached_path +:+ ".json") with
  | Some (Json doc) => PyDict.get key (references doc)
  | _ => None
  end.

(** The document an update leaves, from the document it started from. *)
Definition merged_doc (doc : summary) (key : string) (urls : list string)
    : summary :=
  {| references :=
       PyDict.set key
         (extend_new (default [] (PyDict.get key (references doc))) urls)
         (references doc);
     timestamp := timestamp doc |}.

(** The sidecar invariant: no URL list holds a URL twice. *)
Definition urls_unique (doc : summary) : Prop :=
  ∀ key urls, PyDict.get key (references doc) = Some urls → NoDup urls.

(** The folder of the backup sources of a cache. *)
Definition backups_path (self : DownloadCache) : string :=
  Os.path_join (_path self) _SOURCE_BACKUP.

(** The names of a listing that are blobs, not sidecars. *)
Definition blobs (names : list string) : list string :=
  filter (λ name, PyStr.endswith name ".json" = false) names.

(** What one blob adds to the files to upload, in the words of the
    specification: its sidecar path and its own path when some reference
    of the sidecar qualifies, nothing otherwise. *)
Definition blob_contribution (fs : filesystem) (excluded_urls : list string)
    (package_list : option PackagesList) (all_refs : gset string)
    (path_backups name : string) : list string :=
  let blob_path := Os.path_join path_backups name in
  let metadata_path := blob_path +:+ ".json" in
  match fs !! metadata_path with
  | Some (Json doc) =>
      if existsb
           (λ item, qualifies excluded_urls package_list all_refs
                              item.1 item.2)
           (references doc)
      then [metadata_path; blob_path]
      else []
  | _ => []
  end.

(** The file at a path holds a sidecar document. *)
Definition readable (fs : filesystem) (path : string) : bool :=
  match fs !! path with
  | Some (Json _) => true
  | _ => false
  end.

(** Every blob of the listing has a sidecar that can be read. *)
Definition sidecars_readable (fs : filesystem) (path_backups : string)
    (names : list string) : bool :=
  forallb
    (λ name, readable fs (Os.path_join path_backups name +:+ ".json"))
    (blobs names).

(** Every sidecar of a blob of the listing that exists can be read. *)
Definition existing_sidecars_readable (fs : filesystem)
    (path_backups : string) (names : list string) : bool :=
  forallb
    (λ name,
       let metadata_path := Os.path_join path_backups name +:+ ".json" in
       implb (Os.path_exists fs metadata_path) (readable fs metadata_path))
    (blobs names).

(** A reference of the package list is selected: it is marked for upload,
    or some revision of one of its binary packages is. *)
Definition selected (ref : ref_info) : Prop :=
  ref_upload ref = Some true
  ∨ ∃ packages pid package rid prev,
      ref_packages ref = Some packages
      ∧ (pid, package) ∈ packages
      ∧ (rid, prev) ∈ revisions package
      ∧ prev_upload prev = true.

(** ** The other paths of the cache *)

Section Paths.

(** [compute_sha256] of [conans.util.sha] is missing from the sources; it
    is a parameter here, applied to the URL itself. *)
Variable compute_sha256 : string → string.

Definition cached_path (self : DownloadCache) (url : string)
    : string * string :=
  let h := compute_sha256 url in
  (Os.path_join (Os.path_join (_path self) _CONAN_CACHE) h, h).

End Paths.

(** The path of the lock file that [lock] computes first. *)
Definition lock_path (self : DownloadCache) (lock_id : string) : string :=
  Os.path_join (Os.path_join (_path self) _LOCKS) lock_id.

(** A name made of one path component: not empty and without ["/"]. *)
Definition plain_name (name : string) : bool :=
  String.eqb (PyStr.first_component name) name && negb (String.eqb name "").

(** * Properties *)

Example update_fresh :
  update_backup_sources_json ∅ "/r/s/h" {| conanfile_ref := Some "pkg/1.0" |}
    (UrlList ["a"; "a"; "b"]) 7
  = Ok {[ "/r/s/h.json" := Json (Summary [("pkg/1.0", ["a"; "b"])] 7) ]}.
Proof. vm_compute. reflexivity. Qed.

Example select_demo :
  get_backup_sources_files_to_upload demo_fs {| _path := "/r" |}
    (Some ["http://x/"]) (Some demo_selection)
  = Ok ["/r/s/h2.json"; "/r/s/h2"].
Proof. vm_compute. reflexivity. Qed.

Example select_demo_all :
  get_backup_sources_files_to_upload demo_fs {| _path := "/r" |}
    (Some ["http://x/"]) None
  = Ok ["/r/s/h1.json"; "/r/s/h1"; "/r/s/h2.json"; "/r/s/h2"].
Proof. vm_compute. reflexivity. Qed.

Example select_all_excluded :
  get_backup_sources_files_to_upload single_fs {| _path := "/r" |}
    (Some ["http://x/"]) None
  = Ok [].
Proof. vm_compute. reflexivity. Qed.

Example select_marked :
  get_backup_sources_files_to_upload single_fs {| _path := "/r" |}
    (Some []) (Some [("pkg/1.0", upload_ref)])
  = Ok ["/r/s/h.json"; "/r/s/h"].
Proof. vm_compute. reflexivity. Qed.

Example select_unrelated :
  get_backup_sources_files_to_upload single_fs {| _path := "/r" |}
    None (Some [("other/2.0", upload_ref)])
  = Ok [].
Proof. vm_compute. reflexivity. Qed.

Example select_broken :
  get_backup_sources_files_to_upload broken_fs {| _path := "/r" |} None None
  = Raise (ConanException "Missing metadata file for backup source /r/s/h1").
Proof. vm_compute. reflexivity. Qed.

(** ** The merge of URL lists *)

Section Merge.

Implicit Types existing urls : list string.
Implicit Types u : string.

Lemma extend_new_cons_in existing u urls :
  u ∈ existing → extend_new existing (u :: urls) = extend_new existing urls.
Proof. intros Hin. unfold extend_new. simpl. by rewrite bool_decide_true. Qed.

Lemma extend_new_cons_notin existing u urls :
  u ∉ existing →
  extend_new existing (u :: urls) = extend_new (existing ++ [u]) urls.
Proof. intros Hin. unfold extend_new. simpl. by rewrite bool_decide_false. Qed.

Lemma first_seen_elem_of urls u : u ∈ first_seen urls ↔ u ∈ urls.
Proof.
  induction urls as [|v urls IH]; [done|]. simpl.
  rewrite !elem_of_cons, list_elem_of_filter, IH.
  destruct (decide (u = v)); naive_solver.
Qed.

Lemma first_seen_NoDup urls : NoDup (first_seen urls).
Proof.
  induction urls as [|v urls IH]; simpl; [constructor|].
  constructor; [|by apply NoDup_filter].
  rewrite list_elem_of_filter. naive_solver.
Qed.

Lemma first_seen_filter (P : string → Prop) `{!∀ x, Decision (P x)} urls :
  first_seen (filter P urls) = filter P (first_seen urls).
Proof.
  induction urls as [|v urls IH]; [done|]. simpl.
  rewrite !filter_cons. destruct (decide (P v)) as [HP|HP]; simpl.
  - rewrite IH, !list_filter_filter. f_equal.
    apply list_filter_iff. naive_solver.
  - rewrite IH, list_filter_filter. apply list_filter_iff.
    intros x. split; [|naive_solver]. intros Hx. split; [done|].
    by intros ->.
Qed.

Lemma first_seen_sublist urls : first_seen urls `sublist_of` urls.
Proof.
  induction urls as [|v urls IH]; [done|]. simpl.
  apply sublist_skip. etrans; [apply sublist_filter|done].
Qed.

Lemma first_seen_id urls : NoDup urls → first_seen urls = urls.
Proof.
  induction 1 as [|v urls Hv _ IH]; [done|]. simpl. rewrite IH. f_equal.
  clear IH. induction urls as [|w urls IHu]; [done|].
  rewrite filter_cons_True by (intros ->; apply Hv; left).
  f_equal. apply IHu. intros Hin. apply Hv. by right.
Qed.

(** The loop of the code computes the merge of the specification. *)
Lemma extend_new_merge_spec existing urls :
  extend_new existing urls = merge_spec existing urls.
Proof.
  unfold merge_spec. revert existing.
  induction urls as [|u urls IH]; intros existing.
  - unfold extend_new. simpl. by rewrite app_nil_r.
  - destruct (decide (u ∈ existing)) as [Hin|Hin].
    + rewrite extend_new_cons_in, IH by done.
      by rewrite filter_cons_False by naive_solver.
    + rewrite extend_new_cons_notin, IH by done.
      rewrite filter_cons_True by done. simpl.
      rewrite <- app_assoc. simpl. do 2 f_equal.
      rewrite <- first_seen_filter, list_filter_filter. f_equal.
      apply list_filter_iff. intros x.
      rewrite elem_of_app, list_elem_of_singleton. naive_solver.
Qed.

End Merge.

Section MergeFacts.

Implicit Types existing urls : list string.
Implicit Types u : string.

Lemma extend_new_elem_of existing urls u :
  u ∈ extend_new existing urls ↔ u ∈ existing ∨ u ∈ urls.
Proof.
  rewrite extend_new_merge_spec. unfold merge_spec.
  rewrite elem_of_app, first_seen_elem_of, list_elem_of_filter.
  destruct (decide (u ∈ existing)); naive_solver.
Qed.

Lemma extend_new_absorb existing urls :
  (∀ u, u ∈ urls → u ∈ existing) → extend_new existing urls = existing.
Proof.
  induction urls as [|v urls IH]; intros Hall; [done|].
  rewrite extend_new_cons_in by (apply Hall; left).
  apply IH. intros u Hu. apply Hall. by right.
Qed.

Lemma extend_new_idem existing urls :
  extend_new (extend_new existing urls) urls = extend_new existing urls.
Proof.
  apply extend_new_absorb. intros u Hu.
  apply extend_new_elem_of. by right.
Qed.

Lemma extend_new_prefix existing urls :
  existing `prefix_of` extend_new existing urls.
Proof. rewrite extend_new_merge_spec. by eexists. Qed.

Lemma extend_new_NoDup existing urls :
  NoDup existing → NoDup (extend_new existing urls).
Proof.
  intros Hnd. rewrite extend_new_merge_spec. unfold merge_spec.
  apply NoDup_app. split_and!; [done| |apply first_seen_NoDup].
  intros u Hu. rewrite first_seen_elem_of, list_elem_of_filter.
  naive_solver.
Qed.

End MergeFacts.

(** ** Dictionaries *)

Section DictFacts.

Context {V : Type}.
Implicit Types d : PyDict.dict V.
Implicit Types k : string.

Lemma get_set_eq k v d : PyDict.get k (PyDict.set k v d) = Some v.
Proof.
  induction d as [|[k' v'] d IH]; simpl.
  - by rewrite String.eqb_refl.
  - destruct (String.eqb_spec k k') as [->|Hne]; simpl.
    + by rewrite String.eqb_refl.
    + by destruct (String.eqb_spec k k').
Qed.

Lemma get_set_ne k k' v d :
  k ≠ k' → PyDict.get k' (PyDict.set k v d) = PyDict.get k' d.
Proof.
  intros Hne. induction d as [|[k0 v0] d IH]; simpl.
  - by destruct (String.eqb_spec k' k); [subst|].
  - destruct (String.eqb_spec k k0) as [->|Hk]; simpl.
    + by destruct (String.eqb_spec k' k0); [subst|].
    + by rewrite IH.
Qed.

Lemma set_id k v d : PyDict.get k d = Some v → PyDict.set k v d = d.
Proof.
  induction d as [|[k' v'] d IH]; simpl; [done|].
  destruct (String.eqb_spec k k') as [->|Hne].
  - by intros [= ->].
  - intros Hget. by rewrite IH.
Qed.

Lemma set_set k v v' d :
  PyDict.set k v (PyDict.set k v' d) = PyDict.set k v d.
Proof.
  induction d as [|[k' w] d IH]; simpl.
  - by rewrite String.eqb_refl.
  - destruct (String.eqb_spec k k') as [->|Hne]; simpl.
    + by rewrite String.eqb_refl.
    + destruct (String.eqb_spec k k'); [done|]. by rewrite IH.
Qed.

Lemma keys_set_present k v v' d :
  PyDict.get k d = Some v' →
  PyDict.keys (PyDict.set k v d) = PyDict.keys d.
Proof.
  unfold PyDict.keys. induction d as [|[k' w] d IH]; simpl; [done|].
  destruct (String.eqb_spec k k') as [->|Hne]; [done|].
  intros Hget. simpl. f_equal. by apply IH.
Qed.

Lemma keys_set_absent k v d :
  PyDict.get k d = None →
  PyDict.keys (PyDict.set k v d) = PyDict.keys d ++ [k].
Proof.
  unfold PyDict.keys. induction d as [|[k' w] d IH]; simpl; [done|].
  destruct (String.eqb_spec k k') as [->|Hne]; [done|].
  intros Hget. simpl. f_equal. by apply IH.
Qed.

Lemma get_Some_keys k v d : PyDict.get k d = Some v → k ∈ PyDict.keys d.
Proof.
  unfold PyDict.keys. induction d as [|[k' w] d IH]; simpl; [done|].
  destruct (String.eqb_spec k k') as [->|Hne]; [left|].
  intros Hget. right. by apply IH.
Qed.

Lemma get_None_keys k d : PyDict.get k d = None → k ∉ PyDict.keys d.
Proof.
  unfold PyDict.keys. induction d as [|[k' w] d IH]; simpl.
  - intros _. apply not_elem_of_nil.
  - destruct (String.eqb_spec k k') as [->|Hne]; [done|].
    intros Hget. apply not_elem_of_cons. split; [done|]. by apply IH.
Qed.

End DictFacts.

(** ** The update of a sidecar *)

Section UpdateFacts.

Implicit Types fs : filesystem.

Lemma path_exists_file fs p f : fs !! p = Some f → Os.path_exists fs p = true.
Proof.
  intros Hf. unfold Os.path_exists.
  by rewrite bool_decide_true by (by eexists).
Qed.

Lemma path_exists_false fs p : Os.path_exists fs p = false → fs !! p = None.
Proof.
  unfold Os.path_exists. intros [Hf _]%orb_false_elim.
  apply bool_decide_eq_false in Hf.
  destruct (fs !! p); [|done]. destruct Hf. by eexists.
Qed.

Lemma load_summary_existing fs sp now doc :
  fs !! sp = Some (Json doc) → load_summary fs sp now = Ok doc.
Proof.
  intros Hf. unfold load_summary, load.
  by rewrite (path_exists_file _ _ _ Hf), Hf.
Qed.

Lemma load_summary_fresh fs sp now :
  Os.path_exists fs sp = false →
  load_summary fs sp now = Ok {| references := []; timestamp := now |}.
Proof. intros Hf. unfold load_summary. by rewrite Hf. Qed.

(** The stored document is the one read when the sidecar exists. *)
Lemma load_summary_Ok fs sp now doc :
  load_summary fs sp now = Ok doc →
  fs !! sp = Some (Json doc)
  ∨ (fs !! sp = None ∧ doc = {| references := []; timestamp := now |}).
Proof.
  unfold load_summary, load.
  destruct (Os.path_exists fs sp) eqn:Hex.
  - destruct (fs !! sp) as [[|doc']|]; simpl; [done| |done].
    intros [= ->]. by left.
  - intros [= <-]. right. split; [|done]. by apply path_exists_false.
Qed.

Lemma update_unfold fs p conanfile urls now :
  update_backup_sources_json fs p conanfile urls now
  = doc ← load_summary fs (p +:+ ".json") now;
    Ok (<[p +:+ ".json" :=
            Json (merged_doc doc (summary_key_of conanfile)
                             (urls_to_list urls))]> fs).
Proof.
  unfold update_backup_sources_json.
  destruct (load_summary fs (p +:+ ".json") now) as [doc|e]; [|done].
  simpl. unfold PyDict.setdefault, merged_doc, save, json_dumps.
  destruct (PyDict.get (summary_key_of conanfile) (references doc));
    simpl; [done|].
  by rewrite set_set.
Qed.

Lemma merged_doc_idem doc key urls :
  merged_doc (merged_doc doc key urls) key urls = merged_doc doc key urls.
Proof.
  unfold merged_doc. simpl. rewrite get_set_eq. simpl.
  by rewrite extend_new_idem, set_set.
Qed.

End UpdateFacts.

Section UpdateProperties.

Implicit Types fs : filesystem.

Lemma update_again fs p conanfile urls now now' fs1 :
  update_backup_sources_json fs p conanfile urls now = Ok fs1 →
  update_backup_sources_json fs1 p conanfile urls now' = Ok fs1.
Proof.
  rewrite !update_unfold.
  destruct (load_summary fs (p +:+ ".json") now) as [doc|e]; [|done].
  simpl. intros [= <-].
  rewrite (load_summary_existing _ _ _ _ (lookup_insert_eq _ _ _)). simpl.
  by rewrite merged_doc_idem, insert_insert_eq.
Qed.

Lemma update_repeatedly_fixed fs p conanfile urls now fs1 clock :
  update_backup_sources_json fs p conanfile urls now = Ok fs1 →
  update_repeatedly fs1 p conanfile urls clock = Ok fs1.
Proof.
  intros Hupd. induction clock as [|now' clock IH]; [done|]. simpl.
  by rewrite (update_again _ _ _ _ _ now' _ Hupd).
Qed.

Lemma stored_urls_insert fs p doc key :
  stored_urls (<[p +:+ ".json" := Json doc]> fs) p key
  = PyDict.get key (references doc).
Proof. unfold stored_urls. by rewrite lookup_insert_eq. Qed.

(** The clock is read for the timestamp of a new sidecar only. *)
Lemma load_summary_clock fs sp now now' doc :
  load_summary fs sp now = Ok doc →
  ∃ doc', load_summary fs sp now' = Ok doc'
          ∧ references doc' = references doc.
Proof.
  unfold load_summary. destruct (Os.path_exists fs sp); [by eauto|].
  intros [= <-]. by eexists.
Qed.

(** C1: [update_backup_sources_json] is idempotent.  Calling it again,
    any number of times and at any later readings of the clock, with the
    same blob path, conanfile and urls gives what the first call gave:
    the same file system, hence the same sidecar and the same URL list
    under the reference key, or the same exception.  Against a single
    call made at another reading of the clock, the URL lists are the
    same under every key and only the timestamp of a new sidecar can
    differ. *)
Theorem update_idempotent fs p conanfile urls now clock :
  update_repeatedly fs p conanfile urls (now :: clock)
  = update_backup_sources_json fs p conanfile urls now
  ∧ ∀ now' fs1 fs2,
      update_backup_sources_json fs p conanfile urls now' = Ok fs1 →
      update_repeatedly fs p conanfile urls (now :: clock) = Ok fs2 →
      (∀ key, stored_urls fs2 p key = stored_urls fs1 p key)
      ∧ (∀ q, q ≠ p +:+ ".json" → fs2 !! q = fs1 !! q).
Proof.
  assert (Hfirst :
    update_repeatedly fs p conanfile urls (now :: clock)
    = update_backup_sources_json fs p conanfile urls now).
  { simpl.
    destruct (update_backup_sources_json fs p conanfile urls now)
      as [fs1|e] eqn:Hupd; [|done].
    simpl. by eapply update_repeatedly_fixed. }
  split; [done|]. intros now' fs1 fs2 H1 H2.
  rewrite Hfirst in H2. rewrite update_unfold in H1, H2.
  destruct (load_summary fs (p +:+ ".json") now) as [doc|e] eqn:Hdoc;
    [|done].
  destruct (load_summary_clock _ _ _ now' _ Hdoc) as (doc' & Hdoc' & Hrefs).
  rewrite Hdoc' in H1. simpl in H1, H2.
  injection H1 as <-. injection H2 as <-. split.
  - intros key. rewrite !stored_urls_insert. unfold merged_doc. simpl.
    by rewrite Hrefs.
  - intros q Hq. by rewrite !lookup_insert_ne.
Qed.

Lemma update_idempotent_witness :
  update_backup_sources_json ∅ "/r/s/h"
    {| conanfile_ref := Some "pkg/1.0" |} (UrlList ["a"; "b"]) 9
  = Ok {[ "/r/s/h.json" := Json (Summary [("pkg/1.0", ["a"; "b"])] 9) ]}
  ∧ update_repeatedly ∅ "/r/s/h"
      {| conanfile_ref := Some "pkg/1.0" |} (UrlList ["a"; "b"]) [7; 8]
    = Ok {[ "/r/s/h.json" := Json (Summary [("pkg/1.0", ["a"; "b"])] 7) ]}
  ∧ stored_urls
      {[ "/r/s/h.json" := Json (Summary [("pkg/1.0", ["a"; "b"])] 7) ]}
      "/r/s/h" "pkg/1.0"
    = stored_urls
        {[ "/r/s/h.json" := Json (Summary [("pkg/1.0", ["a"; "b"])] 9) ]}
        "/r/s/h" "pkg/1.0".
Proof.
  assert (H1 :
    update_backup_sources_json ∅ "/r/s/h"
      {| conanfile_ref := Some "pkg/1.0" |} (UrlList ["a"; "b"]) 9
    = Ok {[ "/r/s/h.json" :=
              Json (Summary [("pkg/1.0", ["a"; "b"])] 9) ]})
    by (vm_compute; reflexivity).
  assert (H2 :
    update_repeatedly ∅ "/r/s/h"
      {| conanfile_ref := Some "pkg/1.0" |} (UrlList ["a"; "b"]) [7; 8]
    = Ok {[ "/r/s/h.json" :=
              Json (Summary [("pkg/1.0", ["a"; "b"])] 7) ]})
    by (vm_compute; reflexivity).
  split; [exact H1|]. split; [exact H2|].
  exact (proj1 (proj2 (update_idempotent ∅ "/r/s/h"
                         {| conanfile_ref := Some "pkg/1.0" |}
                         (UrlList ["a"; "b"]) 7 [8]) 9 _ _ H1 H2)
               "pkg/1.0").
Defined.

Lemma update_result fs p conanfile urls now doc :
  load_summary fs (p +:+ ".json") now = Ok doc →
  update_backup_sources_json fs p conanfile urls now
  = Ok (<[p +:+ ".json" :=
            Json (merged_doc doc (summary_key_of conanfile)
                             (urls_to_list urls))]> fs).
Proof. intros Hdoc. by rewrite update_unfold, Hdoc. Qed.

Lemma merged_doc_get doc key urls :
  PyDict.get key (references (merged_doc doc key urls))
  = Some (extend_new (default [] (PyDict.get key (references doc))) urls).
Proof. apply get_set_eq. Qed.

Lemma merged_doc_get_ne doc key key' urls :
  key ≠ key' →
  PyDict.get key' (references (merged_doc doc key urls))
  = PyDict.get key' (references doc).
Proof. apply get_set_ne. Qed.

(** C2: the merge extends the URL list of the resolved key with exactly
    the input URLs not already present, in input order, after the
    existing entries, which are neither removed nor reordered; a first
    update with ["a"; "b"] and a second with ["b"; "c"] for a key with
    no entry yet leave ["a"; "b"; "c"]. *)
Theorem update_appends_new_urls fs p conanfile urls now doc :
  load_summary fs (p +:+ ".json") now = Ok doc →
  let key := summary_key_of conanfile in
  let existing := default [] (PyDict.get key (references doc)) in
  (∃ fs' added,
      update_backup_sources_json fs p conanfile urls now = Ok fs'
      ∧ stored_urls fs' p key = Some (existing ++ added)
      ∧ added = first_seen (filter (λ u, u ∉ existing) (urls_to_list urls))
      ∧ (∀ u, u ∈ added ↔ u ∈ urls_to_list urls ∧ u ∉ existing)
      ∧ added `sublist_of` urls_to_list urls
      ∧ NoDup added)
  ∧ (PyDict.get key (references doc) = None →
     ∀ now', ∃ fs1 fs2,
       update_backup_sources_json fs p conanfile
         (UrlList ["a"; "b"]) now = Ok fs1
       ∧ update_backup_sources_json fs1 p conanfile
           (UrlList ["b"; "c"]) now' = Ok fs2
       ∧ stored_urls fs2 p key = Some ["a"; "b"; "c"]).
Proof.
  intros Hdoc key existing. split.
  - eexists _, _. split; [by apply update_result|].
    rewrite stored_urls_insert, merged_doc_get, extend_new_merge_spec.
    split; [done|]. split; [done|]. split_and!.
    + intros u. rewrite first_seen_elem_of, list_elem_of_filter.
      naive_solver.
    + etrans; [apply first_seen_sublist|apply sublist_filter].
    + apply first_seen_NoDup.
  - intros Hnone now'. eexists _, _.
    split; [by apply update_result|]. split.
    + apply update_result, load_summary_existing, lookup_insert_eq.
    + rewrite stored_urls_insert, !merged_doc_get.
      fold key. by rewrite Hnone.
Qed.

Lemma update_appends_new_urls_witness :
  (∃ fs' added,
     update_backup_sources_json
       {[ "/r/s/h.json" := Json (Summary [("pkg/1.0", ["b"; "a"])] 1) ]}
       "/r/s/h" {| conanfile_ref := Some "pkg/1.0" |}
       (UrlList ["c"; "a"; "d"; "c"]) 5 = Ok fs'
     ∧ stored_urls fs' "/r/s/h" "pkg/1.0" = Some (["b"; "a"] ++ added)
     ∧ added
       = first_seen (filter (λ u, u ∉ ["b"; "a"]) ["c"; "a"; "d"; "c"])
     ∧ (∀ u, u ∈ added ↔ u ∈ ["c"; "a"; "d"; "c"] ∧ u ∉ ["b"; "a"])
     ∧ added `sublist_of` ["c"; "a"; "d"; "c"]
     ∧ NoDup added)
  ∧ (∃ fs1 fs2,
       update_backup_sources_json ∅ "/r/s/h" {| conanfile_ref := None |}
         (UrlList ["a"; "b"]) 5 = Ok fs1
       ∧ update_backup_sources_json fs1 "/r/s/h" {| conanfile_ref := None |}
           (UrlList ["b"; "c"]) 6 = Ok fs2
       ∧ stored_urls fs2 "/r/s/h" "unknown" = Some ["a"; "b"; "c"]).
Proof.
  split.
  - refine (proj1 (update_appends_new_urls
      {[ "/r/s/h.json" := Json (Summary [("pkg/1.0", ["b"; "a"])] 1) ]}
      "/r/s/h" {| conanfile_ref := Some "pkg/1.0" |}
      (UrlList ["c"; "a"; "d"; "c"]) 5
      (Summary [("pkg/1.0", ["b"; "a"])] 1) _)).
    vm_compute. reflexivity.
  - refine (proj2 (update_appends_new_urls ∅ "/r/s/h"
      {| conanfile_ref := None |} (UrlList []) 5
      {| references := []; timestamp := 5 |} _) _ 6).
    + vm_compute. reflexivity.
    + reflexivity.
Defined.

(** C7: the sidecar key is the textual form of the conanfile's reference
    when it has one and "unknown" when it has none; in either case the
    update succeeds whenever the sidecar can be read, and the URLs end up
    in the list stored under that key. *)
Theorem update_key_resolution fs p conanfile urls now doc :
  load_summary fs (p +:+ ".json") now = Ok doc →
  ∃ fs',
    update_backup_sources_json fs p conanfile urls now = Ok fs'
    ∧ (∀ ref, conanfile_ref conanfile = Some ref →
         ∃ stored,
           stored_urls fs' p ref = Some stored
           ∧ stored
             = extend_new (default [] (PyDict.get ref (references doc)))
                          (urls_to_list urls)
           ∧ ∀ u, u ∈ urls_to_list urls → u ∈ stored)
    ∧ (conanfile_ref conanfile = None →
         ∃ stored,
           stored_urls fs' p "unknown" = Some stored
           ∧ stored
             = extend_new
                 (default [] (PyDict.get "unknown" (references doc)))
                 (urls_to_list urls)
           ∧ ∀ u, u ∈ urls_to_list urls → u ∈ stored).
Proof.
  intros Hdoc. eexists. split; [by apply update_result|].
  unfold summary_key_of. split.
  - intros ref ->. eexists.
    rewrite stored_urls_insert, merged_doc_get. split_and!; [done..|].
    intros u Hu. apply extend_new_elem_of. by right.
  - intros ->. eexists.
    rewrite stored_urls_insert, merged_doc_get. split_and!; [done..|].
    intros u Hu. apply extend_new_elem_of. by right.
Qed.

Lemma update_key_resolution_witness :
  ∃ fs',
    update_backup_sources_json ∅ "/r/s/h" {| conanfile_ref := None |}
      (OneUrl "http://y/a") 3 = Ok fs'
    ∧ ∃ stored,
        stored_urls fs' "/r/s/h" "unknown" = Some stored
        ∧ stored = extend_new [] ["http://y/a"]
        ∧ ∀ u, u ∈ ["http://y/a"] → u ∈ stored.
Proof.
  destruct (update_key_resolution ∅ "/r/s/h" {| conanfile_ref := None |}
              (OneUrl "http://y/a") 3
              {| references := []; timestamp := 3 |})
    as (fs' & Hupd & _ & Hunknown).
  - vm_compute. reflexivity.
  - exists fs'. split; [exact Hupd|]. exact (Hunknown eq_refl).
Defined.

(** C8: an update keeps the sidecar invariant.  When no URL list of the
    document holds a URL twice, none does afterwards, whatever the urls
    argument, repeated URLs included; every list that was there is the
    front of the list now under its key, and the list of the resolved key
    is the old one followed by the new URLs as first seen; the timestamp
    is that of the document read, which is the stored one when the
    sidecar was there. *)
Theorem update_preserves_invariant fs p conanfile urls now doc :
  load_summary fs (p +:+ ".json") now = Ok doc →
  urls_unique doc →
  ∃ doc',
    update_backup_sources_json fs p conanfile urls now
    = Ok (<[p +:+ ".json" := Json doc']> fs)
    ∧ urls_unique doc'
    ∧ (∀ key old, PyDict.get key (references doc) = Some old →
         ∃ new, PyDict.get key (references doc') = Some new
                ∧ old `prefix_of` new)
    ∧ PyDict.get (summary_key_of conanfile) (references doc')
      = Some (merge_spec
                (default [] (PyDict.get (summary_key_of conanfile)
                                        (references doc)))
                (urls_to_list urls))
    ∧ timestamp doc' = timestamp doc
    ∧ (∀ doc0, fs !! (p +:+ ".json") = Some (Json doc0) →
         timestamp doc' = timestamp doc0).
Proof.
  intros Hdoc Hinv. eexists. split; [by apply update_result|].
  set (key0 := summary_key_of conanfile). split_and!.
  - intros key l. destruct (decide (key0 = key)) as [<-|Hne].
    + rewrite merged_doc_get. intros [= <-]. apply extend_new_NoDup.
      destruct (PyDict.get key0 (references doc)) as [old|] eqn:Hold;
        simpl; [by eapply Hinv|constructor].
    + rewrite merged_doc_get_ne by done. apply Hinv.
  - intros key old Hold. destruct (decide (key0 = key)) as [<-|Hne].
    + rewrite merged_doc_get, Hold. simpl. eexists. split; [done|].
      apply extend_new_prefix.
    + rewrite merged_doc_get_ne by done. by exists old.
  - by rewrite merged_doc_get, extend_new_merge_spec.
  - done.
  - intros doc0 Hfile.
    destruct (load_summary_Ok _ _ _ _ Hdoc) as [Hsame|[Hnone _]];
      simplify_eq; done.
Qed.

Lemma update_preserves_invariant_witness :
  ∃ doc',
    update_backup_sources_json
      {[ "/r/s/h.json" := Json (Summary [("pkg/1.0", ["b"; "a"])] 1) ]}
      "/r/s/h" {| conanfile_ref := Some "pkg/1.0" |}
      (UrlList ["c"; "a"; "c"]) 5
    = Ok (<["/r/s/h.json" := Json doc']>
            {[ "/r/s/h.json" :=
                 Json (Summary [("pkg/1.0", ["b"; "a"])] 1) ]})
    ∧ urls_unique doc'
    ∧ timestamp doc' = 1.
Proof.
  destruct (update_preserves_invariant
    {[ "/r/s/h.json" := Json (Summary [("pkg/1.0", ["b"; "a"])] 1) ]}
    "/r/s/h" {| conanfile_ref := Some "pkg/1.0" |}
    (UrlList ["c"; "a"; "c"]) 5
    (Summary [("pkg/1.0", ["b"; "a"])] 1))
    as (doc' & Hupd & Hinv & _ & _ & Hts & _).
  - vm_compute. reflexivity.
  - intros key l. simpl.
    destruct (String.eqb key "pkg/1.0"); [|done].
    intros [= <-]. apply (bool_decide_unpack (NoDup ["b"; "a"])).
    vm_compute. exact I.
  - exists doc'. split; [exact Hupd|]. split; [exact Hinv|]. exact Hts.
Defined.

(** C10: an update of an existing sidecar touches the URL list of the
    resolved key only: every other key keeps its list, the keys stay as
    they were or gain the resolved key at the end, and no other file
    changes. *)
Theorem update_frame fs p conanfile urls now doc :
  fs !! (p +:+ ".json") = Some (Json doc) →
  ∃ fs' doc',
    update_backup_sources_json fs p conanfile urls now = Ok fs'
    ∧ fs' !! (p +:+ ".json") = Some (Json doc')
    ∧ (∀ q, q ≠ p +:+ ".json" → fs' !! q = fs !! q)
    ∧ (∀ key, key ≠ summary_key_of conanfile →
         PyDict.get key (references doc')
         = PyDict.get key (references doc))
    ∧ (PyDict.keys (references doc') = PyDict.keys (references doc)
       ∨ ((summary_key_of conanfile ∉ PyDict.keys (references doc))
          ∧ PyDict.keys (references doc')
            = PyDict.keys (references doc) ++ [summary_key_of conanfile])).
Proof.
  intros Hfile. eexists _, _.
  split; [by eapply update_result, load_summary_existing|].
  split; [apply lookup_insert_eq|]. split_and!.
  - intros q Hq. by rewrite lookup_insert_ne.
  - intros key Hkey. by apply merged_doc_get_ne.
  - unfold merged_doc. simpl.
    destruct (PyDict.get (summary_key_of conanfile) (references doc))
      as [old|] eqn:Hold.
    + left. by eapply keys_set_present.
    + right. split; [by apply get_None_keys|]. by apply keys_set_absent.
Qed.

Lemma update_frame_witness :
  ∃ fs' doc',
    update_backup_sources_json demo_fs "/r/s/h2"
      {| conanfile_ref := Some "new/3.0" |} (UrlList ["http://z/b"]) 9
    = Ok fs'
    ∧ fs' !! "/r/s/h2.json" = Some (Json doc')
    ∧ (∀ q, q ≠ "/r/s/h2.json" → fs' !! q = demo_fs !! q)
    ∧ (∀ key, key ≠ "new/3.0" →
         PyDict.get key (references doc')
         = PyDict.get key
             [("unknown", ["http://x/b"]);
              ("pkg/1.0", ["http://x/b"; "http://y/b"]);
              ("dep/2.0", ["http://y/b"])]).
Proof.
  destruct (update_frame demo_fs "/r/s/h2"
              {| conanfile_ref := Some "new/3.0" |}
              (UrlList ["http://z/b"]) 9
              (Summary [("unknown", ["http://x/b"]);
                        ("pkg/1.0", ["http://x/b"; "http://y/b"]);
                        ("dep/2.0", ["http://y/b"])] 2))
    as (fs' & doc' & Hupd & Hfile & Hothers & Hkeys & _).
  - vm_compute. reflexivity.
  - exists fs', doc'. split; [exact Hupd|]. split; [exact Hfile|].
    split; [exact Hothers|]. exact Hkeys.
Defined.

End UpdateProperties.

(** ** The selection *)

Section SelectionFacts.

Variable fs : filesystem.
Variable excluded_urls : list string.
Variable package_list : option PackagesList.
Variable all_refs : gset string.

Lemma has_excluded_urls_spec urls :
  has_excluded_urls excluded_urls urls = true
  ↔ ∀ url, url ∈ urls →
      ∃ excluded_url,
        excluded_url ∈ excluded_urls
        ∧ PyStr.startswith url excluded_url = true.
Proof.
  unfold has_excluded_urls. rewrite forallb_forall.
  setoid_rewrite existsb_exists. setoid_rewrite list_elem_of_In.
  done.
Qed.

Lemma scan_references_none m b items acc :
  (∀ ref urls, (ref, urls) ∈ items →
     qualifies excluded_urls package_list all_refs ref urls = false) →
  scan_references excluded_urls package_list all_refs m b items acc = acc.
Proof.
  induction items as [|[ref urls] items IH]; intros Hnone; [done|].
  simpl. rewrite Hnone by left. apply IH.
  intros ref' urls' Hin. apply Hnone. by right.
Qed.

Lemma scan_references_first m b pre ref urls post acc :
  (∀ ref' urls', (ref', urls') ∈ pre →
     qualifies excluded_urls package_list all_refs ref' urls' = false) →
  qualifies excluded_urls package_list all_refs ref urls = true →
  scan_references excluded_urls package_list all_refs m b
    (pre ++ (ref, urls) :: post) acc
  = acc ++ [m; b].
Proof.
  intros Hpre Hq. induction pre as [|[ref' urls'] pre IH]; simpl.
  - rewrite Hq. by rewrite <- app_assoc.
  - rewrite Hpre by left. apply IH.
    intros r u Hin. apply Hpre. by right.
Qed.

Lemma scan_references_existsb m b items acc :
  scan_references excluded_urls package_list all_refs m b items acc
  = acc ++ (if existsb
                  (λ item, qualifies excluded_urls package_list all_refs
                                     item.1 item.2)
                  items
            then [m; b] else []).
Proof.
  induction items as [|[ref urls] items IH]; simpl.
  - by rewrite app_nil_r.
  - destruct (qualifies excluded_urls package_list all_refs ref urls);
      simpl; [|done].
    by rewrite <- app_assoc.
Qed.

Variable path_backups : string.

Lemma blobs_cons_blob name names :
  PyStr.endswith name ".json" = false →
  blobs (name :: names) = name :: blobs names.
Proof. intros H. unfold blobs. by rewrite filter_cons_True. Qed.

Lemma blobs_cons_sidecar name names :
  PyStr.endswith name ".json" = true →
  blobs (name :: names) = blobs names.
Proof.
  intros H. unfold blobs. rewrite filter_cons_False; [done|]. by rewrite H.
Qed.

Lemma readable_Some path :
  readable fs path = true ↔ ∃ doc, fs !! path = Some (Json doc).
Proof.
  unfold readable. destruct (fs !! path) as [[|doc]|]; naive_solver.
Qed.

(** The loop returns exactly when every blob has a readable sidecar, and
    then it returns the contributions of the blobs, in order. *)
Lemma scan_backups_Ok names acc files :
  scan_backups fs excluded_urls package_list all_refs path_backups names acc
  = Ok files
  ↔ sidecars_readable fs path_backups names = true
    ∧ files
      = acc ++ flat_map (blob_contribution fs excluded_urls package_list
                           all_refs path_backups) (blobs names).
Proof.
  unfold sidecars_readable. revert acc.
  induction names as [|name names IH]; intros acc; simpl.
  - rewrite app_nil_r. naive_solver.
  - destruct (PyStr.endswith name ".json") eqn:Hname; simpl.
    { rewrite blobs_cons_sidecar by done. apply IH. }
    rewrite blobs_cons_blob by done. simpl.
    unfold load, blob_contribution, readable at 1.
    destruct (Os.path_exists fs (Os.path_join path_backups name +:+ ".json"))
      eqn:Hex; simpl.
    + destruct (fs !! (Os.path_join path_backups name +:+ ".json"))
        as [[|doc]|] eqn:Hfile; simpl; [naive_solver| |naive_solver].
      rewrite IH, scan_references_existsb, <- app_assoc. done.
    + rewrite (path_exists_false _ _ Hex). naive_solver.
Qed.

(** Sidecar names are passed over. *)
Lemma scan_backups_blobs names acc :
  scan_backups fs excluded_urls package_list all_refs path_backups names acc
  = scan_backups fs excluded_urls package_list all_refs path_backups
      (blobs names) acc.
Proof.
  revert acc. induction names as [|name names IH]; intros acc; [done|].
  destruct (PyStr.endswith name ".json") eqn:Hname.
  - rewrite blobs_cons_sidecar by done. simpl. rewrite Hname. apply IH.
  - rewrite blobs_cons_blob by done. simpl. rewrite Hname. simpl.
    destruct (Os.path_exists _ _); simpl; [|done].
    destruct (load _ _) as [content|e]; simpl; [|done].
    destruct (json_loads content); simpl; [|done]. apply IH.
Qed.

(** A blob without sidecar stops the loop with an exception, which is the
    consistency error of the first such blob when the sidecars that exist
    can be read. *)
Lemma scan_backups_missing names name acc :
  name ∈ names →
  PyStr.endswith name ".json" = false →
  Os.path_exists fs (Os.path_join path_backups name +:+ ".json") = false →
  ∃ e,
    scan_backups fs excluded_urls package_list all_refs path_backups names acc
    = Raise e
    ∧ (existing_sidecars_readable fs path_backups names = true →
       ∃ name',
         name' ∈ names
         ∧ PyStr.endswith name' ".json" = false
         ∧ Os.path_exists fs (Os.path_join path_backups name' +:+ ".json")
           = false
         ∧ e = ConanException
                 ("Missing metadata file for backup source "
                  +:+ Os.path_join path_backups name')).
Proof.
  intros Hin Hblob Hmissing. unfold existing_sidecars_readable. revert acc.
  induction names as [|n names IH]; intros acc; [by apply elem_of_nil in Hin|].
  simpl. destruct (PyStr.endswith n ".json") eqn:Hn; simpl.
  - rewrite blobs_cons_sidecar by done.
    apply elem_of_cons in Hin as [->|Hin]; [congruence|].
    destruct (IH Hin acc) as (e & He & Hmsg). exists e. split; [done|].
    intros Hr. destruct (Hmsg Hr) as (name' & ? & ?). exists name'.
    split; [by right|done].
  - rewrite blobs_cons_blob by done. simpl.
    destruct (Os.path_exists fs (Os.path_join path_backups n +:+ ".json"))
      eqn:Hex; simpl.
    + apply elem_of_cons in Hin as [->|Hin]; [congruence|].
      unfold load, readable at 1.
      destruct (fs !! (Os.path_join path_backups n +:+ ".json"))
        as [[|doc]|]; simpl; [by eexists| |by eexists].
      destruct (IH Hin
                  (scan_references excluded_urls package_list all_refs
                     (Os.path_join path_backups n +:+ ".json")
                     (Os.path_join path_backups n) (references doc) acc))
        as (e & He & Hmsg).
      exists e. split; [done|].
      intros Hr. destruct (Hmsg Hr) as (name' & ? & ?). exists name'.
      split; [by right|done].
    + eexists. split; [done|]. intros _. exists n.
      split; [by left|done].
Qed.

End SelectionFacts.

Section PackageListFacts.

Lemma should_upload_sources_spec package :
  should_upload_sources package = true
  ↔ ∃ rid prev, (rid, prev) ∈ revisions package ∧ prev_upload prev = true.
Proof.
  unfold should_upload_sources. rewrite existsb_exists.
  setoid_rewrite <- list_elem_of_In. setoid_rewrite list_elem_of_fmap.
  split.
  - intros (prev & ([rid prev'] & -> & Hin) & Hup). by exists rid, prev'.
  - intros (rid & prev & Hin & Hup). exists prev. split; [|done].
    by exists (rid, prev).
Qed.

Lemma selected_spec ref :
  truthy (ref_upload ref)
  || existsb should_upload_sources (default [] (ref_packages ref)).*2 = true
  ↔ selected ref.
Proof.
  unfold selected. rewrite orb_true_iff, existsb_exists.
  setoid_rewrite <- list_elem_of_In. setoid_rewrite list_elem_of_fmap.
  setoid_rewrite should_upload_sources_spec.
  split.
  - intros [Hup|(package & ([pid package'] & -> & Hin) & rid & prev & ?)].
    + left. by destruct (ref_upload ref) as [[]|].
    + right. destruct (ref_packages ref) as [packages|];
        [|by apply elem_of_nil in Hin].
      by exists packages, pid, package', rid, prev.
  - intros [->|(packages & pid & package & rid & prev & -> & Hin & ?)];
      [by left|].
    right. exists package. split; [by exists (pid, package)|].
    by exists rid, prev.
Qed.

Lemma collect_refs_spec items k :
  k ∈ collect_refs (Some items) ↔ ∃ ref, (k, ref) ∈ items ∧ selected ref.
Proof.
  unfold collect_refs.
  assert (Hacc : ∀ acc : gset string,
    k ∈ fold_left
          (λ (all_refs : gset string) '(k, ref),
             let packages := (default [] (ref_packages ref)).*2 in
             if truthy (ref_upload ref)
                || existsb should_upload_sources packages
             then all_refs ∪ {[ k ]}
             else all_refs)
          items acc
    ↔ k ∈ acc ∨ ∃ ref, (k, ref) ∈ items ∧ selected ref).
  { induction items as [|[k' ref'] items IH]; intros acc; simpl.
    - setoid_rewrite elem_of_nil. naive_solver.
    - rewrite IH. setoid_rewrite elem_of_cons.
      pose proof (selected_spec ref') as Hsel. simpl in Hsel.
      destruct (truthy (ref_upload ref')
                || existsb should_upload_sources
                     (default [] (ref_packages ref')).*2).
      + rewrite elem_of_union, elem_of_singleton.
        split; [|naive_solver].
        intros [[Hk| ->]|(ref & Hin & Hs)]; [by left| |naive_solver].
        right. exists ref'. split; [by left|]. by apply Hsel.
      + split; [naive_solver|].
        intros [Hk|(ref & [[= -> ->]|Hin] & Hs)]; [by left| |naive_solver].
        apply Hsel in Hs. done. }
  rewrite Hacc. set_solver.
Qed.

End PackageListFacts.

(** ** The selection as a whole *)

Section SelectorFacts.

Implicit Types fs : filesystem.

Lemma listdir_NoDup fs d names : Os.listdir fs d = Ok names → NoDup names.
Proof.
  unfold Os.listdir. destruct (Os.path_isdir fs d); [|done].
  intros [= <-]. apply NoDup_remove_dups.
Qed.

Lemma get_backup_listed fs self excluded_urls package_list names :
  Os.listdir fs (backups_path self) = Ok names →
  get_backup_sources_files_to_upload fs self excluded_urls package_list
  = scan_backups fs (default [] excluded_urls) package_list
      (collect_refs package_list) (backups_path self) names [].
Proof.
  unfold get_backup_sources_files_to_upload, Os.listdir, Os.path_exists.
  fold (backups_path self).
  destruct (Os.path_isdir fs (backups_path self)); [|done].
  intros [= <-]. by rewrite orb_true_r.
Qed.

Lemma get_backup_Ok_inv fs self excluded_urls package_list files :
  get_backup_sources_files_to_upload fs self excluded_urls package_list
  = Ok files →
  files = []
  ∨ ∃ names,
      Os.listdir fs (backups_path self) = Ok names
      ∧ scan_backups fs (default [] excluded_urls) package_list
          (collect_refs package_list) (backups_path self) names []
        = Ok files.
Proof.
  unfold get_backup_sources_files_to_upload. fold (backups_path self).
  destruct (Os.path_exists fs (backups_path self)); simpl;
    [|intros [= <-]; by left].
  destruct (Os.listdir fs (backups_path self)) as [names|e]; simpl; [|done].
  intros Hscan. right. by exists names.
Qed.

Lemma qualifies_true excluded_urls package_list all_refs ref urls :
  qualifies excluded_urls package_list all_refs ref urls = true
  ↔ has_excluded_urls excluded_urls urls = false
    ∧ (package_list = None ∨ ref ∈ all_refs).
Proof.
  unfold qualifies. rewrite andb_true_iff, negb_true_iff.
  destruct package_list as [items|].
  - rewrite bool_decide_eq_true. naive_solver.
  - naive_solver.
Qed.

End SelectorFacts.

(** C3: [has_excluded_urls] holds of a URL list exactly when every URL
    of the list starts with some excluded prefix, so it holds of the empty
    list; the loop over the references of a blob adds nothing when no
    reference qualifies, and adds the sidecar path and the blob path once,
    at the first reference that qualifies, whatever follows it; the
    selection returns, for the blobs of the folder each taken once and in
    order, the two paths of those with a qualifying reference. *)
Theorem selection_per_blob fs self excluded_urls package_list :
  let excluded := default [] excluded_urls in
  let all_refs := collect_refs package_list in
  let path_backups := backups_path self in
  (∀ urls,
     has_excluded_urls excluded urls = true
     ↔ ∀ url, url ∈ urls →
         ∃ excluded_url,
           excluded_url ∈ excluded
           ∧ PyStr.startswith url excluded_url = true)
  ∧ has_excluded_urls excluded [] = true
  ∧ (∀ metadata_path blob_path items files_to_upload,
       (∀ ref urls, (ref, urls) ∈ items →
          qualifies excluded package_list all_refs ref urls = false) →
       scan_references excluded package_list all_refs
         metadata_path blob_path items files_to_upload
       = files_to_upload)
  ∧ (∀ metadata_path blob_path before ref urls after files_to_upload,
       (∀ ref' urls', (ref', urls') ∈ before →
          qualifies excluded package_list all_refs ref' urls' = false) →
       qualifies excluded package_list all_refs ref urls = true →
       scan_references excluded package_list all_refs
         metadata_path blob_path (before ++ (ref, urls) :: after)
         files_to_upload
       = files_to_upload ++ [metadata_path; blob_path])
  ∧ (∀ names,
       Os.listdir fs path_backups = Ok names →
       sidecars_readable fs path_backups names = true →
       NoDup (blobs names)
       ∧ get_backup_sources_files_to_upload fs self excluded_urls
           package_list
         = Ok (flat_map
                 (blob_contribution fs excluded package_list all_refs
                    path_backups)
                 (blobs names))).
Proof.
  intros excluded all_refs path_backups. split_and!.
  - apply has_excluded_urls_spec.
  - done.
  - intros. by apply scan_references_none.
  - intros. by apply scan_references_first.
  - intros names Hnames Hreadable. split.
    + apply NoDup_filter. by eapply listdir_NoDup.
    + rewrite (get_backup_listed _ _ _ _ _ Hnames).
      by apply scan_backups_Ok.
Qed.

Lemma selection_per_blob_witness :
  get_backup_sources_files_to_upload demo_fs {| _path := "/r" |}
    (Some ["http://x/"]) (Some demo_selection)
  = Ok (flat_map
          (blob_contribution demo_fs ["http://x/"] (Some demo_selection)
             (collect_refs (Some demo_selection)) "/r/s")
          ["h1"; "h2"]).
Proof.
  refine (proj2 (proj2 (proj2 (proj2 (proj2
    (selection_per_blob demo_fs {| _path := "/r" |} (Some ["http://x/"])
       (Some demo_selection)))))
    ["h1.json"; "h1"; "h2.json"; "h2"] _ _)).
  - vm_compute. reflexivity.
  - vm_compute. reflexivity.
Defined.

(** C4: with a package list, [all_refs] holds exactly the textual keys of
    the references marked for upload or with a binary package one of whose
    revisions is marked for upload; a reference of a sidecar then
    qualifies exactly when its URLs are not all excluded and it is in
    [all_refs], so each returned path is that of a blob with such a
    reference; with no package list every reference whose URLs are not all
    excluded qualifies. *)
Theorem selection_eligible_refs excluded items :
  (∀ k, k ∈ collect_refs (Some items)
        ↔ ∃ ref, (k, ref) ∈ items ∧ selected ref)
  ∧ (∀ ref urls,
       qualifies excluded (Some items) (collect_refs (Some items)) ref urls
       = true
       ↔ has_excluded_urls excluded urls = false
         ∧ ref ∈ collect_refs (Some items))
  ∧ (∀ all_refs ref urls,
       qualifies excluded None all_refs ref urls = true
       ↔ has_excluded_urls excluded urls = false)
  ∧ (∀ fs self excluded_urls files file,
       get_backup_sources_files_to_upload fs self excluded_urls (Some items)
       = Ok files →
       file ∈ files →
       ∃ name doc ref urls,
         fs !! (Os.path_join (backups_path self) name +:+ ".json")
         = Some (Json doc)
         ∧ (file = Os.path_join (backups_path self) name +:+ ".json"
            ∨ file = Os.path_join (backups_path self) name)
         ∧ (ref, urls) ∈ references doc
         ∧ has_excluded_urls (default [] excluded_urls) urls = false
         ∧ ref ∈ collect_refs (Some items)).
Proof.
  split_and!.
  - apply collect_refs_spec.
  - intros ref urls. rewrite qualifies_true. naive_solver.
  - intros all_refs ref urls. rewrite qualifies_true. naive_solver.
  - intros fs self excluded_urls files file Hfiles Hfile.
    destruct (get_backup_Ok_inv _ _ _ _ _ Hfiles)
      as [->|(names & _ & Hscan)]; [by apply elem_of_nil in Hfile|].
    apply scan_backups_Ok in Hscan as [_ ->]. simpl in Hfile.
    apply list_elem_of_In, in_flat_map in Hfile as (name & _ & Hfile).
    apply list_elem_of_In in Hfile. unfold blob_contribution in Hfile.
    destruct (fs !! (Os.path_join (backups_path self) name +:+ ".json"))
      as [[|doc]|] eqn:Hdoc; [by apply elem_of_nil in Hfile| |
                              by apply elem_of_nil in Hfile].
    destruct (existsb _ (references doc)) eqn:Hex;
      [|by apply elem_of_nil in Hfile].
    apply existsb_exists in Hex as ([ref urls] & Hin & Hq).
    apply list_elem_of_In in Hin. simpl in Hq.
    apply qualifies_true in Hq as [Hexcl [?|Href]]; [done|].
    exists name, doc, ref, urls. split_and!; [done| |done..].
    set_solver.
Qed.

Lemma selection_eligible_refs_witness :
  ∃ name doc ref urls,
    demo_fs !! (Os.path_join "/r/s" name +:+ ".json") = Some (Json doc)
    ∧ ("/r/s/h2" = Os.path_join "/r/s" name +:+ ".json"
       ∨ "/r/s/h2" = Os.path_join "/r/s" name)
    ∧ (ref, urls) ∈ references doc
    ∧ has_excluded_urls ["http://x/"] urls = false
    ∧ ref ∈ collect_refs (Some demo_selection).
Proof.
  refine (proj2 (proj2 (proj2
    (selection_eligible_refs ["http://x/"] demo_selection)))
    demo_fs {| _path := "/r" |} (Some ["http://x/"])
    ["/r/s/h2.json"; "/r/s/h2"] "/r/s/h2" _ _).
  - vm_compute. reflexivity.
  - right. left.
Defined.

(** The loop stops at the first blob without sidecar, with the
    consistency error for that blob, when the sidecars of the blobs listed
    before it can be read. *)
Lemma scan_backups_first_missing (fs : filesystem) excluded_urls
    package_list all_refs path_backups before name after acc :
  sidecars_readable fs path_backups before = true →
  PyStr.endswith name ".json" = false →
  Os.path_exists fs (Os.path_join path_backups name +:+ ".json") = false →
  scan_backups fs excluded_urls package_list all_refs path_backups
    (before ++ name :: after) acc
  = Raise (ConanException
             ("Missing metadata file for backup source "
              +:+ Os.path_join path_backups name)).
Proof.
  intros Hreadable Hblob Hmissing. revert acc Hreadable.
  unfold sidecars_readable.
  induction before as [|n before IH]; intros acc Hreadable; simpl.
  - by rewrite Hblob, Hmissing.
  - destruct (PyStr.endswith n ".json") eqn:Hn; simpl.
    + rewrite blobs_cons_sidecar in Hreadable by done. by apply IH.
    + rewrite blobs_cons_blob in Hreadable by done. simpl in Hreadable.
      apply andb_true_iff in Hreadable as [Hdoc Hrest].
      apply readable_Some in Hdoc as [doc Hdoc].
      rewrite (path_exists_file _ _ _ Hdoc). unfold load. rewrite Hdoc.
      simpl. by apply IH.
Qed.

(** C5, as the code has it: when a blob of the folder has no sidecar the
    selection returns no list, it raises; and what it raises is the
    exception with the message "Missing metadata file for backup source
    <blob path>" for that blob when the sidecars of the blobs listed
    before it hold documents, whatever the sidecars listed after it
    hold. *)
Theorem missing_sidecar_raises fs self excluded_urls package_list
    before name after :
  Os.listdir fs (backups_path self) = Ok (before ++ name :: after) →
  PyStr.endswith name ".json" = false →
  Os.path_exists fs (Os.path_join (backups_path self) name +:+ ".json")
  = false →
  (∃ e,
     get_backup_sources_files_to_upload fs self excluded_urls package_list
     = Raise e)
  ∧ (sidecars_readable fs (backups_path self) before = true →
     get_backup_sources_files_to_upload fs self excluded_urls package_list
     = Raise (ConanException
                ("Missing metadata file for backup source "
                 +:+ Os.path_join (backups_path self) name))).
Proof.
  intros Hnames Hblob Hmissing.
  rewrite (get_backup_listed _ _ _ _ _ Hnames). split.
  - destruct (scan_backups_missing fs (default [] excluded_urls)
                package_list (collect_refs package_list)
                (backups_path self) (before ++ name :: after) name [])
      as (e & He & _); [|done|done|by exists e].
    apply elem_of_app. right. left.
  - intros Hreadable. by apply scan_backups_first_missing.
Qed.

Lemma missing_sidecar_raises_witness :
  (∃ e,
     get_backup_sources_files_to_upload late_corrupt_fs {| _path := "/r" |}
       None None = Raise e)
  ∧ get_backup_sources_files_to_upload late_corrupt_fs {| _path := "/r" |}
      None None
    = Raise (ConanException
               ("Missing metadata file for backup source "
                +:+ Os.path_join "/r/s" "a")).
Proof.
  destruct (missing_sidecar_raises late_corrupt_fs {| _path := "/r" |}
              None None [] "a" ["b.json"; "b"])
    as [Hraises Hmessage].
  - vm_compute. reflexivity.
  - reflexivity.
  - vm_compute. reflexivity.
  - split; [exact Hraises|]. apply Hmessage. reflexivity.
Defined.

(** C5 as it is stated fails: with a blob without sidecar in the folder,
    the selection raises the error of [json.loads] when a blob listed
    before it has a sidecar that is not JSON. *)
Lemma missing_sidecar_message_counterexample :
  Os.listdir corrupt_fs (backups_path {| _path := "/r" |})
  = Ok ["a.json"; "a"; "b"]
  ∧ PyStr.endswith "b" ".json" = false
  ∧ Os.path_exists corrupt_fs
      (Os.path_join (backups_path {| _path := "/r" |}) "b" +:+ ".json")
    = false
  ∧ get_backup_sources_files_to_upload corrupt_fs {| _path := "/r" |}
      None None
    = Raise JSONDecodeError
  ∧ ¬ (∃ blob_path,
         get_backup_sources_files_to_upload corrupt_fs {| _path := "/r" |}
           None None
         = Raise (ConanException
                    ("Missing metadata file for backup source "
                     +:+ blob_path))).
Proof.
  assert (Hraised :
    get_backup_sources_files_to_upload corrupt_fs {| _path := "/r" |}
      None None
    = Raise JSONDecodeError) by (vm_compute; reflexivity).
  split; [vm_compute; reflexivity|].
  split; [reflexivity|].
  split; [vm_compute; reflexivity|].
  split; [exact Hraised|].
  intros [blob_path Hmessage]. rewrite Hraised in Hmessage.
  discriminate Hmessage.
Qed.

(** C9: the names of the folder that end in ".json" are passed over, so
    the selection is that of the blobs alone and a sidecar is read only
    through its blob; when every name of the folder ends in ".json" the
    selection returns the empty list, whatever the sidecars hold. *)
Theorem orphan_sidecars_ignored fs self excluded_urls package_list names :
  Os.listdir fs (backups_path self) = Ok names →
  get_backup_sources_files_to_upload fs self excluded_urls package_list
  = scan_backups fs (default [] excluded_urls) package_list
      (collect_refs package_list) (backups_path self) (blobs names) []
  ∧ ((∀ name, name ∈ names → PyStr.endswith name ".json" = true) →
     get_backup_sources_files_to_upload fs self excluded_urls package_list
     = Ok []).
Proof.
  intros Hnames. rewrite (get_backup_listed _ _ _ _ _ Hnames).
  rewrite scan_backups_blobs. split; [done|].
  intros Hall. replace (blobs names) with (@nil string); [done|].
  symmetry. unfold blobs. clear Hnames.
  induction names as [|name names IH]; [done|].
  rewrite filter_cons_False by (rewrite Hall; [done|left]).
  apply IH. intros name' Hin. apply Hall. by right.
Qed.

Lemma orphan_sidecars_ignored_witness :
  get_backup_sources_files_to_upload orphan_fs {| _path := "/r" |}
    None (Some demo_selection)
  = Ok [].
Proof.
  refine (proj2 (orphan_sidecars_ignored orphan_fs {| _path := "/r" |}
                   None (Some demo_selection) ["h1.json"; "h2.json"] _) _).
  - vm_compute. reflexivity.
  - intros name Hin.
    apply elem_of_cons in Hin as [->|Hin]; [reflexivity|].
    apply elem_of_cons in Hin as [->|Hin]; [reflexivity|].
    by apply elem_of_nil in Hin.
Defined.

(** * Further properties of the update *)

Section UpdateComposition.

Implicit Types fs : filesystem.

Lemma extend_new_app existing urls1 urls2 :
  extend_new (extend_new existing urls1) urls2
  = extend_new existing (urls1 ++ urls2).
Proof. unfold extend_new. by rewrite fold_left_app. Qed.

Lemma merged_doc_app doc key urls1 urls2 :
  merged_doc (merged_doc doc key urls1) key urls2
  = merged_doc doc key (urls1 ++ urls2).
Proof.
  unfold merged_doc. simpl. rewrite get_set_eq. simpl.
  by rewrite extend_new_app, set_set.
Qed.

Lemma merged_doc_known doc key urls known :
  PyDict.get key (references doc) = Some known →
  (∀ u, u ∈ urls → u ∈ known) →
  merged_doc doc key urls = doc.
Proof.
  intros Hget Hall. destruct doc as [refs ts]. unfold merged_doc. simpl in *.
  rewrite Hget. simpl. rewrite extend_new_absorb by done.
  by rewrite set_id.
Qed.

Lemma append_nil_r (s : string) : s +:+ "" = s.
Proof.
  induction s as [|c s IH]; [done|].
  change (String c (s +:+ "") = String c s). by rewrite IH.
Qed.

Lemma append_ne_self (s t : string) : t ≠ "" → s ≠ s +:+ t.
Proof.
  intros Ht Heq. rewrite <- (append_nil_r s) in Heq at 1.
  by apply (inj (String.append s)) in Heq.
Qed.

End UpdateComposition.

(** X1: two updates in a row, with the URL lists [urls1] and then [urls2]
    for the same blob and conanfile, give what the single update with
    [urls1 ++ urls2] gives: the same file system, or the same exception. *)
Theorem update_batches (fs : filesystem) p conanfile urls1 urls2 now now' :
  (fs1 ← update_backup_sources_json fs p conanfile (UrlList urls1) now;
   update_backup_sources_json fs1 p conanfile (UrlList urls2) now')
  = update_backup_sources_json fs p conanfile (UrlList (urls1 ++ urls2)) now.
Proof.
  rewrite !update_unfold.
  destruct (load_summary fs (p +:+ ".json") now) as [doc|e]; [|done].
  simpl. rewrite update_unfold.
  rewrite (load_summary_existing _ _ _ _ (lookup_insert_eq _ _ _)). simpl.
  by rewrite merged_doc_app, insert_insert_eq.
Qed.

(** X2: the update succeeds exactly when the sidecar does not exist or
    holds a document, and it raises the JSON decoding error exactly when
    the sidecar is a file that is not JSON: an unreadable sidecar is never
    replaced by a new document. *)
Theorem update_raises_on_unreadable (fs : filesystem) p conanfile urls now :
  ((∃ fs', update_backup_sources_json fs p conanfile urls now = Ok fs')
   ↔ Os.path_exists fs (p +:+ ".json") = false
     ∨ readable fs (p +:+ ".json") = true)
  ∧ (update_backup_sources_json fs p conanfile urls now
     = Raise JSONDecodeError
     ↔ fs !! (p +:+ ".json") = Some Bytes).
Proof.
  rewrite update_unfold. unfold load_summary, load, readable.
  destruct (Os.path_exists fs (p +:+ ".json")) eqn:Hex.
  - destruct (fs !! (p +:+ ".json")) as [[|doc]|]; simpl; naive_solver.
  - rewrite (path_exists_false _ _ Hex). simpl. naive_solver.
Qed.

(** X3: a successful update writes the sidecar and nothing else: the file
    at [cached_path +:+ ".json"] holds a document afterwards, and every
    other path, that of the blob included, holds what it held. *)
Theorem update_writes_sidecar_only (fs : filesystem) p conanfile urls now fs' :
  update_backup_sources_json fs p conanfile urls now = Ok fs' →
  (∃ doc, fs' !! (p +:+ ".json") = Some (Json doc))
  ∧ fs' !! p = fs !! p
  ∧ (∀ q, q ≠ p +:+ ".json" → fs' !! q = fs !! q).
Proof.
  rewrite update_unfold.
  destruct (load_summary fs (p +:+ ".json") now) as [doc|e]; [|done].
  simpl. intros [= <-]. split_and!.
  - eexists. apply lookup_insert_eq.
  - apply lookup_insert_ne. intros Heq. by apply (append_ne_self p ".json").
  - intros q Hq. by apply lookup_insert_ne.
Qed.

Lemma update_writes_sidecar_only_witness :
  (∃ doc,
     ({[ "/r/s/h.json" := Json (Summary [("unknown", ["http://y/a"])] 3);
         "/r/s/h" := Bytes ]} : filesystem) !! "/r/s/h.json"
     = Some (Json doc))
  ∧ ({[ "/r/s/h.json" := Json (Summary [("unknown", ["http://y/a"])] 3);
        "/r/s/h" := Bytes ]} : filesystem) !! "/r/s/h"
    = ({[ "/r/s/h" := Bytes ]} : filesystem) !! "/r/s/h".
Proof.
  destruct (update_writes_sidecar_only {[ "/r/s/h" := Bytes ]} "/r/s/h"
              {| conanfile_ref := None |} (OneUrl "http://y/a") 3
              {[ "/r/s/h.json" :=
                   Json (Summary [("unknown", ["http://y/a"])] 3);
                 "/r/s/h" := Bytes ]})
    as (Hdoc & Hblob & _).
  - vm_compute. reflexivity.
  - split; [exact Hdoc|exact Hblob].
Defined.

(** X4: an update whose URLs are all recorded already under the key of
    the conanfile leaves the file system as it was. *)
Theorem update_known_urls (fs : filesystem) p conanfile urls now doc known :
  fs !! (p +:+ ".json") = Some (Json doc) →
  PyDict.get (summary_key_of conanfile) (references doc) = Some known →
  (∀ u, u ∈ urls_to_list urls → u ∈ known) →
  update_backup_sources_json fs p conanfile urls now = Ok fs.
Proof.
  intros Hfile Hget Hall.
  rewrite (update_result _ _ _ _ _ doc)
    by by apply load_summary_existing.
  rewrite (merged_doc_known _ _ _ known) by done.
  by rewrite insert_id.
Qed.

Lemma update_known_urls_witness :
  update_backup_sources_json demo_fs "/r/s/h2"
    {| conanfile_ref := Some "pkg/1.0" |}
    (UrlList ["http://y/b"; "http://x/b"; "http://y/b"]) 9
  = Ok demo_fs.
Proof.
  refine (update_known_urls demo_fs "/r/s/h2"
            {| conanfile_ref := Some "pkg/1.0" |}
            (UrlList ["http://y/b"; "http://x/b"; "http://y/b"]) 9
            (Summary [("unknown", ["http://x/b"]);
                      ("pkg/1.0", ["http://x/b"; "http://y/b"]);
                      ("dep/2.0", ["http://y/b"])] 2)
            ["http://x/b"; "http://y/b"] _ _ _).
  - vm_compute. reflexivity.
  - reflexivity.
  - intros u Hu. apply (bool_decide_unpack _).
    revert u Hu. apply Forall_forall.
    repeat constructor.
Defined.

(** X5: updates under two different keys do not interfere: done in either
    order on a sidecar that can be read, both succeed and every key has the
    same URL list afterwards. *)
Theorem update_keys_independent (fs : filesystem) p conanfile1 conanfile2
    urls1 urls2 now now1 now2 doc :
  load_summary fs (p +:+ ".json") now = Ok doc →
  summary_key_of conanfile1 ≠ summary_key_of conanfile2 →
  ∃ fs12 fs21,
    (fs1 ← update_backup_sources_json fs p conanfile1 urls1 now;
     update_backup_sources_json fs1 p conanfile2 urls2 now1) = Ok fs12
    ∧ (fs2 ← update_backup_sources_json fs p conanfile2 urls2 now;
       update_backup_sources_json fs2 p conanfile1 urls1 now2) = Ok fs21
    ∧ ∀ key, stored_urls fs12 p key = stored_urls fs21 p key.
Proof.
  intros Hdoc Hne. eexists _, _.
  rewrite !(update_result _ _ _ _ _ doc) by done. simpl.
  rewrite !update_unfold.
  rewrite !(load_summary_existing _ _ _ _ (lookup_insert_eq _ _ _)). simpl.
  split; [done|]. split; [done|].
  intros key. rewrite !stored_urls_insert.
  destruct (decide (key = summary_key_of conanfile1)) as [->|H1].
  { rewrite merged_doc_get_ne, !merged_doc_get by done.
    by rewrite merged_doc_get_ne by done. }
  destruct (decide (key = summary_key_of conanfile2)) as [->|H2].
  { rewrite merged_doc_get, (merged_doc_get_ne _ _ _ _ Hne).
    by rewrite merged_doc_get_ne, merged_doc_get by done. }
  by rewrite !merged_doc_get_ne by done.
Qed.

Lemma update_keys_independent_witness :
  ∃ fs12 fs21,
    (fs1 ← update_backup_sources_json ∅ "/r/s/h"
             {| conanfile_ref := Some "pkg/1.0" |} (OneUrl "a") 1;
     update_backup_sources_json fs1 "/r/s/h"
       {| conanfile_ref := None |} (OneUrl "b") 2) = Ok fs12
    ∧ (fs2 ← update_backup_sources_json ∅ "/r/s/h"
               {| conanfile_ref := None |} (OneUrl "b") 1;
       update_backup_sources_json fs2 "/r/s/h"
         {| conanfile_ref := Some "pkg/1.0" |} (OneUrl "a") 3) = Ok fs21
    ∧ ∀ key, stored_urls fs12 "/r/s/h" key = stored_urls fs21 "/r/s/h" key.
Proof.
  refine (update_keys_independent ∅ "/r/s/h"
            {| conanfile_ref := Some "pkg/1.0" |} {| conanfile_ref := None |}
            (OneUrl "a") (OneUrl "b") 1 2 3
            {| references := []; timestamp := 1 |} _ _).
  - vm_compute. reflexivity.
  - discriminate.
Defined.

(** * Further properties of the selection *)

Section SelectionComposition.

Implicit Types fs : filesystem.

Lemma get_backup_unfold fs self excluded_urls package_list :
  get_backup_sources_files_to_upload fs self excluded_urls package_list
  = if Os.path_exists fs (backups_path self)
    then names ← Os.listdir fs (backups_path self);
         scan_backups fs (default [] excluded_urls) package_list
           (collect_refs package_list) (backups_path self) names []
    else Ok [].
Proof.
  unfold get_backup_sources_files_to_upload. fold (backups_path self).
  by destruct (Os.path_exists fs (backups_path self)).
Qed.

Lemma flat_map_sublist {A B} (f g : A → list B) (l : list A) :
  (∀ x, f x `sublist_of` g x) → flat_map f l `sublist_of` flat_map g l.
Proof.
  intros Hfg. induction l as [|x l IH]; simpl; [done|]. by apply sublist_app.
Qed.

Lemma flat_map_nil {A B} (f : A → list B) (l : list A) :
  (∀ x, f x = []) → flat_map f l = [].
Proof.
  intros Hf. induction l as [|x l IH]; simpl; [done|]. by rewrite Hf, IH.
Qed.

Lemma existsb_impl {A} (f g : A → bool) (l : list A) :
  (∀ x, f x = true → g x = true) → existsb f l = true → existsb g l = true.
Proof.
  intros Hfg. rewrite !existsb_exists. intros (x & Hin & Hf). eauto.
Qed.

(** The contribution of a blob shrinks with the condition on references. *)
Lemma blob_contribution_sublist fs excluded excluded' package_list
    package_list' all_refs all_refs' path_backups name :
  (∀ ref urls,
     qualifies excluded' package_list' all_refs' ref urls = true →
     qualifies excluded package_list all_refs ref urls = true) →
  blob_contribution fs excluded' package_list' all_refs' path_backups name
  `sublist_of`
  blob_contribution fs excluded package_list all_refs path_backups name.
Proof.
  intros Himpl. unfold blob_contribution.
  destruct (fs !! (Os.path_join path_backups name +:+ ".json"))
    as [[|doc]|]; [done| |done].
  destruct (existsb
              (λ item, qualifies excluded' package_list' all_refs'
                                 item.1 item.2) (references doc)) eqn:Hex.
  - by rewrite (existsb_impl _
                  (λ item, qualifies excluded package_list all_refs
                                     item.1 item.2)
                  _ (λ item, Himpl item.1 item.2) Hex).
  - apply sublist_nil_l.
Qed.

Lemma selection_shrinks fs self excluded_urls excluded_urls' package_list
    package_list' files :
  (∀ ref urls,
     qualifies (default [] excluded_urls') package_list'
               (collect_refs package_list') ref urls = true →
     qualifies (default [] excluded_urls) package_list
               (collect_refs package_list) ref urls = true) →
  get_backup_sources_files_to_upload fs self excluded_urls package_list
  = Ok files →
  ∃ files',
    get_backup_sources_files_to_upload fs self excluded_urls' package_list'
    = Ok files'
    ∧ files' `sublist_of` files.
Proof.
  intros Himpl. rewrite !get_backup_unfold.
  destruct (Os.path_exists fs (backups_path self)); [|by eauto].
  destruct (Os.listdir fs (backups_path self)) as [names|e]; simpl; [|done].
  intros [Hreadable ->]%scan_backups_Ok. eexists. split.
  - apply scan_backups_Ok. by split.
  - simpl. apply flat_map_sublist. intros name.
    by apply blob_contribution_sublist.
Qed.

(** Whether the selection returns depends on the file system only. *)
Lemma selection_returns_alike fs self excluded_urls excluded_urls'
    package_list package_list' files :
  get_backup_sources_files_to_upload fs self excluded_urls package_list
  = Ok files →
  ∃ files',
    get_backup_sources_files_to_upload fs self excluded_urls' package_list'
    = Ok files'.
Proof.
  rewrite !get_backup_unfold.
  destruct (Os.path_exists fs (backups_path self)); [|by eauto].
  destruct (Os.listdir fs (backups_path self)) as [names|e]; simpl; [|done].
  intros [Hreadable _]%scan_backups_Ok. eexists.
  apply scan_backups_Ok. by split.
Qed.

Lemma has_excluded_urls_mono excluded excluded' urls :
  (∀ e, e ∈ excluded → e ∈ excluded') →
  has_excluded_urls excluded urls = true →
  has_excluded_urls excluded' urls = true.
Proof.
  intros Hsub. rewrite !has_excluded_urls_spec. intros Hall url Hurl.
  destruct (Hall url Hurl) as (e & He & Hstart). eauto.
Qed.

Lemma has_excluded_urls_empty_prefix excluded urls :
  "" ∈ excluded → has_excluded_urls excluded urls = true.
Proof.
  intros Hin. apply has_excluded_urls_spec. intros url _.
  exists "". split; [done|]. by destruct url.
Qed.

(** What is raised depends on the file system only. *)
Lemma scan_backups_Raise fs excluded excluded' package_list package_list'
    all_refs all_refs' path_backups names acc acc' e :
  scan_backups fs excluded package_list all_refs path_backups names acc
  = Raise e →
  scan_backups fs excluded' package_list' all_refs' path_backups names acc'
  = Raise e.
Proof.
  revert acc acc'. induction names as [|name names IH]; intros acc acc';
    simpl; [done|].
  destruct (negb (PyStr.endswith name ".json")); [|by apply IH].
  destruct (negb (Os.path_exists fs _)); [done|].
  destruct (load fs _) as [content|e']; simpl; [|done].
  destruct (json_loads content) as [doc|e']; simpl; [|done].
  apply IH.
Qed.

Lemma flat_map_contribution_pairs fs excluded package_list all_refs
    path_backups names :
  ∃ blob_paths,
    flat_map (blob_contribution fs excluded package_list all_refs
                path_backups) names
    = flat_map (λ b, [b +:+ ".json"; b]) blob_paths
    ∧ ∀ b, b ∈ blob_paths → readable fs (b +:+ ".json") = true.
Proof.
  induction names as [|name names (bs & Hbs & Hread)]; simpl.
  - exists []. split; [done|]. by intros b ?%elem_of_nil.
  - unfold blob_contribution at 1.
    destruct (fs !! (Os.path_join path_backups name +:+ ".json"))
      as [[|doc]|] eqn:Hdoc; simpl; [by exists bs| |by exists bs].
    destruct (existsb _ (references doc)); [|by exists bs].
    exists (Os.path_join path_backups name :: bs). simpl.
    split; [by rewrite Hbs|].
    intros b [->|Hb]%elem_of_cons; [|by apply Hread].
    unfold readable. by rewrite Hdoc.
Qed.

End SelectionComposition.

(** X6: a longer list of excluded prefixes selects less: when the
    selection returns with a list of prefixes, it returns with any list
    that holds them all, and what it returns then is a sublist of what it
    returned before. *)
Theorem selection_excluded_mono (fs : filesystem) self excluded excluded'
    package_list files :
  (∀ e, e ∈ excluded → e ∈ excluded') →
  get_backup_sources_files_to_upload fs self (Some excluded) package_list
  = Ok files →
  ∃ files',
    get_backup_sources_files_to_upload fs self (Some excluded') package_list
    = Ok files'
    ∧ files' `sublist_of` files.
Proof.
  intros Hsub. apply selection_shrinks. intros ref urls. simpl.
  rewrite !qualifies_true. intros [Hexcl Hsel]. split; [|done].
  destruct (has_excluded_urls excluded urls) eqn:Hex; [|done].
  by rewrite (has_excluded_urls_mono _ _ _ Hsub Hex) in Hexcl.
Qed.

Lemma selection_excluded_mono_witness :
  ∃ files',
    get_backup_sources_files_to_upload demo_fs {| _path := "/r" |}
      (Some ["http://x/"; "http://y/a"]) None = Ok files'
    ∧ files'
      `sublist_of` ["/r/s/h1.json"; "/r/s/h1"; "/r/s/h2.json"; "/r/s/h2"].
Proof.
  refine (selection_excluded_mono demo_fs {| _path := "/r" |}
            ["http://x/"] ["http://x/"; "http://y/a"] None
            ["/r/s/h1.json"; "/r/s/h1"; "/r/s/h2.json"; "/r/s/h2"] _ _).
  - intros e He. apply elem_of_cons in He as [->|He]; [left|].
    by apply elem_of_nil in He.
  - vm_compute. reflexivity.
Defined.

(** X7: a package list only narrows the selection: when the selection
    returns with a package list, it returns without one, and the files
    selected with the package list are a sublist of those selected
    without. *)
Theorem selection_package_list_narrows (fs : filesystem) self excluded_urls
    items files :
  get_backup_sources_files_to_upload fs self excluded_urls (Some items)
  = Ok files →
  ∃ files_all,
    get_backup_sources_files_to_upload fs self excluded_urls None
    = Ok files_all
    ∧ files `sublist_of` files_all.
Proof.
  intros Hsel.
  destruct (selection_returns_alike fs self excluded_urls excluded_urls
              (Some items) None files Hsel) as (files_all & Hall).
  exists files_all. split; [done|].
  destruct (selection_shrinks fs self excluded_urls excluded_urls
              None (Some items) files_all) as (files' & Hsel' & Hsub);
    [ |done|].
  { intros ref urls. rewrite !qualifies_true. naive_solver. }
  rewrite Hsel in Hsel'. by injection Hsel' as <-.
Qed.

Lemma selection_package_list_narrows_witness :
  ∃ files_all,
    get_backup_sources_files_to_upload demo_fs {| _path := "/r" |}
      (Some ["http://x/"]) None = Ok files_all
    ∧ ["/r/s/h2.json"; "/r/s/h2"] `sublist_of` files_all.
Proof.
  refine (selection_package_list_narrows demo_fs {| _path := "/r" |}
            (Some ["http://x/"]) demo_selection
            ["/r/s/h2.json"; "/r/s/h2"] _).
  vm_compute. reflexivity.
Defined.

(** X8: what the selection raises does not depend on the excluded
    prefixes or on the package list: with the same cache, it raises the
    same exception whatever these are. *)
Theorem selection_raises_alike (fs : filesystem) self excluded_urls
    excluded_urls' package_list package_list' e :
  get_backup_sources_files_to_upload fs self excluded_urls package_list
  = Raise e
  ↔ get_backup_sources_files_to_upload fs self excluded_urls' package_list'
    = Raise e.
Proof.
  rewrite !get_backup_unfold.
  destruct (Os.path_exists fs (backups_path self)); [|done].
  destruct (Os.listdir fs (backups_path self)) as [names|e']; simpl; [|done].
  split; apply scan_backups_Raise.
Qed.

(** X9: with the empty string among the excluded prefixes nothing is
    selected: every URL starts with it, so the selection never returns a
    file. *)
Theorem selection_empty_prefix (fs : filesystem) self excluded package_list
    files :
  "" ∈ excluded →
  get_backup_sources_files_to_upload fs self (Some excluded) package_list
  = Ok files →
  files = [].
Proof.
  intros Hin. rewrite get_backup_unfold.
  destruct (Os.path_exists fs (backups_path self)); [|by intros [= <-]].
  destruct (Os.listdir fs (backups_path self)) as [names|e]; simpl; [|done].
  intros [_ ->]%scan_backups_Ok. simpl. apply flat_map_nil.
  intros name. unfold blob_contribution.
  destruct (fs !! _) as [[|doc]|]; [done| |done].
  destruct (existsb _ (references doc)) eqn:Hex; [|done].
  apply existsb_exists in Hex as ([ref urls] & _ & Hq).
  apply qualifies_true in Hq as [Hexcl _]. simpl in Hexcl.
  by rewrite has_excluded_urls_empty_prefix in Hexcl.
Qed.

Lemma selection_empty_prefix_witness :
  get_backup_sources_files_to_upload demo_fs {| _path := "/r" |}
    (Some ["http://x/"; ""]) (Some demo_selection) = Ok []
  ∧ ([] : list string) = [].
Proof.
  assert (Hsel :
    get_backup_sources_files_to_upload demo_fs {| _path := "/r" |}
      (Some ["http://x/"; ""]) (Some demo_selection) = Ok [])
    by (vm_compute; reflexivity).
  split; [exact Hsel|].
  refine (selection_empty_prefix demo_fs {| _path := "/r" |}
            ["http://x/"; ""] (Some demo_selection) [] _ Hsel).
  right. left.
Defined.

(** X10: the list returned is a sequence of pairs, each the path of a
    sidecar that holds a document followed by the path of its blob, the
    first being the second with ".json" added. *)
Theorem selection_pairs (fs : filesystem) self excluded_urls package_list
    files :
  get_backup_sources_files_to_upload fs self excluded_urls package_list
  = Ok files →
  ∃ blob_paths,
    files = flat_map (λ b, [b +:+ ".json"; b]) blob_paths
    ∧ ∀ b, b ∈ blob_paths → readable fs (b +:+ ".json") = true.
Proof.
  rewrite get_backup_unfold.
  destruct (Os.path_exists fs (backups_path self)).
  - destruct (Os.listdir fs (backups_path self)) as [names|e]; simpl;
      [|done].
    intros [_ ->]%scan_backups_Ok. simpl.
    apply flat_map_contribution_pairs.
  - intros [= <-]. exists []. split; [done|]. by intros b ?%elem_of_nil.
Qed.

Lemma selection_pairs_witness :
  ∃ blob_paths,
    ["/r/s/h2.json"; "/r/s/h2"]
    = flat_map (λ b, [b +:+ ".json"; b]) blob_paths
    ∧ ∀ b, b ∈ blob_paths → readable demo_fs (b +:+ ".json") = true.
Proof.
  refine (selection_pairs demo_fs {| _path := "/r" |}
            (Some ["http://x/"]) (Some demo_selection)
            ["/r/s/h2.json"; "/r/s/h2"] _).
  vm_compute. reflexivity.
Defined.

(** X11: a package list in which no reference is selected, the empty one
    included, selects nothing, unlike the absence of a package list. *)
Theorem selection_nothing_marked (fs : filesystem) self excluded_urls items
    files :
  (∀ k ref, (k, ref) ∈ items → ¬ selected ref) →
  get_backup_sources_files_to_upload fs self excluded_urls (Some items)
  = Ok files →
  files = [].
Proof.
  intros Hnone. rewrite get_backup_unfold.
  destruct (Os.path_exists fs (backups_path self)); [|by intros [= <-]].
  destruct (Os.listdir fs (backups_path self)) as [names|e]; simpl; [|done].
  intros [_ ->]%scan_backups_Ok. simpl. apply flat_map_nil.
  intros name. unfold blob_contribution.
  destruct (fs !! _) as [[|doc]|]; [done| |done].
  destruct (existsb _ (references doc)) eqn:Hex; [|done].
  apply existsb_exists in Hex as ([ref urls] & _ & Hq).
  apply qualifies_true in Hq as [_ [?|Hin]]; [done|]. simpl in Hin.
  apply collect_refs_spec in Hin as (info & Hin & Hsel).
  by destruct (Hnone _ _ Hin).
Qed.

Lemma selection_nothing_marked_witness :
  get_backup_sources_files_to_upload demo_fs {| _path := "/r" |}
    None (Some []) = Ok []
  ∧ ([] : list string) = [].
Proof.
  assert (Hsel :
    get_backup_sources_files_to_upload demo_fs {| _path := "/r" |}
      None (Some []) = Ok [])
    by (vm_compute; reflexivity).
  split; [exact Hsel|].
  refine (selection_nothing_marked demo_fs {| _path := "/r" |} None [] []
            _ Hsel).
  intros k ref Hin. destruct (not_elem_of_nil _ Hin).
Defined.

(** X12: the files returned are exactly the sidecar paths and blob paths
    of the blobs of the folder whose sidecar has a reference with a URL
    list that is not all excluded and, when a package list is given, that
    is in the set collected from it. *)
Theorem selection_members (fs : filesystem) self excluded_urls package_list
    names files file :
  Os.listdir fs (backups_path self) = Ok names →
  get_backup_sources_files_to_upload fs self excluded_urls package_list
  = Ok files →
  file ∈ files
  ↔ ∃ name doc ref urls,
      name ∈ names
      ∧ PyStr.endswith name ".json" = false
      ∧ fs !! (Os.path_join (backups_path self) name +:+ ".json")
        = Some (Json doc)
      ∧ (file = Os.path_join (backups_path self) name +:+ ".json"
         ∨ file = Os.path_join (backups_path self) name)
      ∧ (ref, urls) ∈ references doc
      ∧ has_excluded_urls (default [] excluded_urls) urls = false
      ∧ (package_list = None ∨ ref ∈ collect_refs package_list).
Proof.
  intros Hnames. rewrite (get_backup_listed _ _ _ _ _ Hnames).
  intros [_ ->]%scan_backups_Ok. simpl.
  rewrite list_elem_of_In, in_flat_map.
  setoid_rewrite <- list_elem_of_In. unfold blobs.
  setoid_rewrite list_elem_of_filter. unfold blob_contribution.
  split.
  - intros (name & [Hblob Hin] & Hfile).
    destruct (fs !! (Os.path_join (backups_path self) name +:+ ".json"))
      as [[|doc]|] eqn:Hdoc;
      [by apply elem_of_nil in Hfile| |by apply elem_of_nil in Hfile].
    destruct (existsb _ (references doc)) eqn:Hex;
      [|by apply elem_of_nil in Hfile].
    apply existsb_exists in Hex as ([ref urls] & Hitem & Hq).
    apply list_elem_of_In in Hitem. simpl in Hq.
    apply qualifies_true in Hq as [Hexcl Hsel].
    exists name, doc, ref, urls. split_and!; [done..| |done|done|done].
    set_solver.
  - intros (name & doc & ref & urls & Hin & Hblob & Hdoc & Hfile & Hitem
            & Hexcl & Hsel).
    exists name. split; [done|]. rewrite Hdoc.
    replace (existsb _ (references doc)) with true; [set_solver|].
    symmetry. apply existsb_exists. exists (ref, urls).
    split; [by apply list_elem_of_In|]. simpl. by apply qualifies_true.
Qed.

Lemma selection_members_witness :
  "/r/s/h2" ∈ ["/r/s/h2.json"; "/r/s/h2"]
  ↔ ∃ name doc ref urls,
      name ∈ ["h1.json"; "h1"; "h2.json"; "h2"]
      ∧ PyStr.endswith name ".json" = false
      ∧ demo_fs !! (Os.path_join "/r/s" name +:+ ".json") = Some (Json doc)
      ∧ ("/r/s/h2" = Os.path_join "/r/s" name +:+ ".json"
         ∨ "/r/s/h2" = Os.path_join "/r/s" name)
      ∧ (ref, urls) ∈ references doc
      ∧ has_excluded_urls ["http://x/"] urls = false
      ∧ (Some demo_selection = None
         ∨ ref ∈ collect_refs (Some demo_selection)).
Proof.
  refine (selection_members demo_fs {| _path := "/r" |}
            (Some ["http://x/"]) (Some demo_selection)
            ["h1.json"; "h1"; "h2.json"; "h2"]
            ["/r/s/h2.json"; "/r/s/h2"] "/r/s/h2" _ _).
  - vm_compute. reflexivity.
  - vm_compute. reflexivity.
Defined.

(** * Properties of the paths *)

Section StringFacts.

Implicit Types a b c s : string.

Lemma append_cons ch a b : String ch a +:+ b = String ch (a +:+ b).
Proof. reflexivity. Qed.

Lemma length_append a b :
  String.length (a +:+ b) = (String.length a + String.length b)%nat.
Proof.
  induction a as [|ch a IH]; [done|]. rewrite append_cons. simpl.
  by rewrite IH.
Qed.

Lemma append_assoc a b c : (a +:+ b) +:+ c = a +:+ b +:+ c.
Proof.
  induction a as [|ch a IH]; [done|]. rewrite !append_cons. by rewrite IH.
Qed.

Lemma append_inj_l a b c : a +:+ c = b +:+ c → a = b.
Proof.
  revert b. induction a as [|ch a IH]; intros [|ch' b] Heq; [done| | |].
  - apply (f_equal String.length) in Heq.
    rewrite !length_append in Heq. simpl in Heq. lia.
  - apply (f_equal String.length) in Heq.
    rewrite !length_append in Heq. simpl in Heq. lia.
  - rewrite !append_cons in Heq. injection Heq as -> Heq.
    f_equal. by apply IH.
Qed.

Lemma substring_full s : String.substring 0 (String.length s) s = s.
Proof. induction s as [|ch s IH]; [done|]. simpl. by rewrite IH. Qed.

Lemma substring_append_r a k m b :
  String.substring (String.length a + k) m (a +:+ b) = String.substring k m b.
Proof. induction a as [|ch a IH]; [done|]. rewrite append_cons. apply IH. Qed.

Lemma prefix_append a b : String.prefix a (a +:+ b) = true.
Proof.
  induction a as [|ch a IH]; [by destruct b|]. rewrite append_cons. simpl.
  by destruct (ascii_dec ch ch).
Qed.

Lemma endswith_append a b : PyStr.endswith (a +:+ b) b = true.
Proof.
  unfold PyStr.endswith. rewrite length_append.
  replace (String.length a + String.length b - String.length b)%nat
    with (String.length a + 0)%nat by lia.
  rewrite substring_append_r, substring_full, String.eqb_refl.
  rewrite andb_true_r. apply Nat.leb_le. lia.
Qed.

(** A string that ends in a character other than ["/"]. *)
Lemma endswith_slash_last a ch :
  ch ≠ "/"%char → PyStr.endswith (a +:+ String ch "") "/" = false.
Proof.
  intros Hch. unfold PyStr.endswith. rewrite length_append. simpl.
  replace (String.length a + 1 - 1)%nat with (String.length a + 0)%nat
    by lia.
  rewrite substring_append_r. simpl.
  destruct (Ascii.eqb_spec ch "/") as [->|_]; [done|]. apply andb_false_r.
Qed.

Lemma first_component_append a b :
  PyStr.first_component a = a →
  PyStr.first_component (a +:+ b) = a +:+ PyStr.first_component b.
Proof.
  induction a as [|ch a IH]; [done|]. rewrite append_cons. simpl.
  destruct (Ascii.eqb ch "/"); [done|].
  intros [= Ha]. rewrite append_cons. by rewrite IH.
Qed.

Lemma first_component_idem s :
  PyStr.first_component (PyStr.first_component s) = PyStr.first_component s.
Proof.
  induction s as [|ch s IH]; [done|]. simpl.
  destruct (Ascii.eqb ch "/") eqn:Hch; [done|]. simpl.
  by rewrite Hch, IH.
Qed.

Lemma plain_name_spec name :
  plain_name name = true ↔ PyStr.first_component name = name ∧ name ≠ "".
Proof.
  unfold plain_name.
  rewrite andb_true_iff, negb_true_iff, String.eqb_eq, String.eqb_neq.
  done.
Qed.

Lemma plain_name_relative name :
  plain_name name = true → PyStr.startswith name "/" = false.
Proof.
  intros [Hfirst Hne]%plain_name_spec.
  destruct name as [|ch name]; [done|]. unfold PyStr.startswith.
  change (String.prefix "/" (String ch name))
    with (if ascii_dec "/" ch then String.prefix "" name else false).
  destruct (ascii_dec "/" ch) as [<-|]; [|done]. simpl in Hfirst. done.
Qed.

Lemma plain_name_sidecar name :
  plain_name name = true → plain_name (name +:+ ".json") = true.
Proof.
  intros [Hfirst Hne]%plain_name_spec. apply plain_name_spec. split.
  - by rewrite first_component_append.
  - destruct name; [done|]. by rewrite append_cons.
Qed.

End StringFacts.

Section PathFacts.

(** Joining a relative name to a directory that is not given with a final
    ["/"]. *)
Lemma path_join_relative a b :
  a ≠ "" → PyStr.endswith a "/" = false → PyStr.startswith b "/" = false →
  Os.path_join a b = a +:+ "/" +:+ b.
Proof.
  intros Ha Hend Hb. unfold Os.path_join. rewrite Hb, Hend.
  by apply String.eqb_neq in Ha as ->.
Qed.

(** The three folders of a cache are a common prefix followed by their
    names. *)
Lemma area_paths self :
  ∃ root,
    Os.path_join (_path self) _SOURCE_BACKUP = root +:+ "s"
    ∧ Os.path_join (_path self) _CONAN_CACHE = root +:+ "c"
    ∧ Os.path_join (_path self) _LOCKS = root +:+ "locks".
Proof.
  unfold Os.path_join, _SOURCE_BACKUP, _CONAN_CACHE, _LOCKS.
  replace (PyStr.startswith "s" "/") with false by done.
  replace (PyStr.startswith "c" "/") with false by done.
  replace (PyStr.startswith "locks" "/") with false by done.
  destruct (String.eqb (_path self) "" || PyStr.endswith (_path self) "/").
  - by exists (_path self).
  - exists (_path self +:+ "/"). by rewrite !append_assoc.
Qed.

Lemma area_entry dir last name :
  last ≠ "/"%char →
  PyStr.startswith name "/" = false →
  Os.path_join (dir +:+ String last "") name
  = dir +:+ String last "" +:+ "/" +:+ name.
Proof.
  intros Hlast Hname. rewrite path_join_relative; [|..|done].
  - by rewrite !append_assoc.
  - destruct dir as [|ch rest]; [done|]. by rewrite append_cons.
  - by apply endswith_slash_last.
Qed.

Lemma source_path_relative self name :
  PyStr.startswith name "/" = false →
  ∃ root,
    backups_path self = root +:+ "s"
    ∧ source_path self name = root +:+ "s/" +:+ name
    ∧ (∀ sha url,
         PyStr.startswith (sha url) "/" = false →
         (cached_path sha self url).1 = root +:+ "c/" +:+ sha url)
    ∧ (∀ lock_id,
         PyStr.startswith lock_id "/" = false →
         lock_path self lock_id = root +:+ "locks/" +:+ lock_id).
Proof.
  intros Hname. destruct (area_paths self) as (root & Hs & Hc & Hl).
  exists root. unfold backups_path, source_path, cached_path, lock_path.
  simpl. rewrite Hs, Hc, Hl. split; [done|]. split_and!.
  - by rewrite (area_entry root "s" name).
  - intros sha url Hsha. by rewrite (area_entry root "c" (sha url)).
  - intros lock_id Hid. change "locks" with ("lock" +:+ "s").
    rewrite <- (append_assoc root "lock" "s").
    rewrite (area_entry (root +:+ "lock") "s" lock_id) by done.
    by rewrite append_assoc.
Qed.

End PathFacts.

(** X13: blobs named differently are stored apart.  For names that do not
    start with "/", equal blob paths mean equal names, and so do equal
    sidecar paths; and a blob path that is the sidecar path of another
    name has a name that ends in ".json", which the selection passes
    over. *)
Theorem source_path_inj self name name' :
  PyStr.startswith name "/" = false →
  PyStr.startswith name' "/" = false →
  (source_path self name = source_path self name' → name = name')
  ∧ (source_path self name +:+ ".json" = source_path self name' +:+ ".json"
     → name = name')
  ∧ (source_path self name = source_path self name' +:+ ".json"
     → PyStr.endswith name ".json" = true).
Proof.
  intros Hname Hname'.
  destruct (source_path_relative self name Hname) as (root & Hs & -> & _).
  destruct (source_path_relative self name' Hname')
    as (root' & Hs' & -> & _).
  assert (root' = root) as ->.
  { rewrite Hs in Hs'. by apply append_inj_l in Hs'. }
  split_and!.
  - intros Heq. by do 2 apply (inj (String.append _)) in Heq.
  - intros Heq. rewrite !append_assoc in Heq.
    do 2 apply (inj (String.append _)) in Heq. by apply append_inj_l in Heq.
  - intros Heq. rewrite !append_assoc in Heq.
    do 2 apply (inj (String.append _)) in Heq. subst name.
    apply endswith_append.
Qed.

Lemma source_path_inj_witness :
  (source_path {| _path := "/r" |} "h1" = source_path {| _path := "/r" |} "h2"
   → "h1" = "h2")
  ∧ (source_path {| _path := "/r" |} "h1" +:+ ".json"
     = source_path {| _path := "/r" |} "h2" +:+ ".json"
     → "h1" = "h2")
  ∧ (source_path {| _path := "/r" |} "h1"
     = source_path {| _path := "/r" |} "h2" +:+ ".json"
     → PyStr.endswith "h1" ".json" = true).
Proof.
  refine (source_path_inj {| _path := "/r" |} "h1" "h2" _ _);
    reflexivity.
Defined.

(** X14: the three folders of the cache do not overlap: for names that
    do not start with "/", the path of a backup source, the path of a
    cached artifact and the path of a lock file are three different
    strings, whatever the hash function. *)
Theorem cache_areas_disjoint (compute_sha256 : string → string) self
    name url lock_id :
  PyStr.startswith name "/" = false →
  PyStr.startswith (compute_sha256 url) "/" = false →
  PyStr.startswith lock_id "/" = false →
  source_path self name ≠ (cached_path compute_sha256 self url).1
  ∧ source_path self name ≠ lock_path self lock_id
  ∧ (cached_path compute_sha256 self url).1 ≠ lock_path self lock_id.
Proof.
  intros Hname Hsha Hid.
  destruct (source_path_relative self name Hname)
    as (root & _ & -> & Hcached & Hlock).
  rewrite (Hcached _ _ Hsha), (Hlock _ Hid).
  split_and!; intros Heq; by apply (inj (String.append _)) in Heq.
Qed.

Lemma cache_areas_disjoint_witness :
  source_path {| _path := "/r" |} "c0ffee"
  ≠ (cached_path (λ url, "c0ffee") {| _path := "/r" |} "http://y/a").1
  ∧ source_path {| _path := "/r" |} "c0ffee"
    ≠ lock_path {| _path := "/r" |} "c0ffee"
  ∧ (cached_path (λ url, "c0ffee") {| _path := "/r" |} "http://y/a").1
    ≠ lock_path {| _path := "/r" |} "c0ffee".
Proof.
  refine (cache_areas_disjoint (λ url, "c0ffee") {| _path := "/r" |}
            "c0ffee" "http://y/a" "c0ffee" _ _ _);
    reflexivity.
Defined.

(** * The update and the selection together *)

Section FolderFacts.

Implicit Types fs : filesystem.

Lemma elem_of_children fs d name :
  name ∈ Os.children fs d
  ↔ ∃ p, is_Some (fs !! p) ∧ Os.child_name d p = Some name.
Proof.
  unfold Os.children. rewrite elem_of_remove_dups, list_elem_of_omap.
  split; intros (p & Hp & Hname); exists p; (split; [|done]).
  - apply list_elem_of_fmap in Hp as ([p' f] & -> & Hin).
    apply elem_of_map_to_list in Hin. by exists f.
  - destruct Hp as [f Hf]. apply list_elem_of_fmap. exists (p, f).
    split; [done|]. by apply elem_of_map_to_list.
Qed.

Lemma listdir_children fs d name :
  name ∈ Os.children fs d → Os.listdir fs d = Ok (Os.children fs d).
Proof.
  unfold Os.listdir, Os.path_isdir.
  destruct (Os.children fs d); [by intros ?%elem_of_nil|done].
Qed.

Lemma listdir_Ok_children fs d names :
  Os.listdir fs d = Ok names → names = Os.children fs d.
Proof.
  unfold Os.listdir. destruct (Os.path_isdir fs d); [|done]. by intros [= <-].
Qed.

Lemma path_exists_false_children fs d :
  Os.path_exists fs d = false → Os.children fs d = [].
Proof.
  unfold Os.path_exists, Os.path_isdir. intros [_ Hdir]%orb_false_elim.
  by destruct (Os.children fs d).
Qed.

Lemma children_path_exists fs d name :
  name ∈ Os.children fs d → Os.path_exists fs d = true.
Proof.
  intros Hin. unfold Os.path_exists, Os.path_isdir.
  destruct (Os.children fs d); [by apply elem_of_nil in Hin|].
  apply orb_true_r.
Qed.

Lemma child_name_plain d p name :
  Os.child_name d p = Some name → plain_name name = true.
Proof.
  unfold Os.child_name. destruct (PyStr.startswith p _); [|done].
  destruct (String.eqb_spec (PyStr.first_component
    (String.substring (String.length (Os.dir_prefix d))
       (String.length p - String.length (Os.dir_prefix d)) p)) "")
    as [|Hne]; [done|].
  intros [= <-]. apply plain_name_spec. split; [|done].
  apply first_component_idem.
Qed.

Lemma children_plain fs d name :
  name ∈ Os.children fs d → plain_name name = true.
Proof.
  intros (p & _ & Hname)%elem_of_children. by eapply child_name_plain.
Qed.

Lemma substring_append_tail a b :
  String.substring (String.length a)
                   (String.length (a +:+ b) - String.length a) (a +:+ b)
  = b.
Proof.
  rewrite length_append.
  replace (String.length a + String.length b - String.length a)%nat
    with (String.length b) by lia.
  rewrite <- (Nat.add_0_r (String.length a)).
  by rewrite substring_append_r, substring_full.
Qed.

(** The entry of a directory that a path below it belongs to. *)
Lemma child_name_under d name rest :
  PyStr.endswith d "/" = false →
  plain_name name = true →
  PyStr.first_component rest = "" →
  Os.child_name d ((d +:+ "/") +:+ name +:+ rest) = Some name.
Proof.
  intros Hend [Hfirst Hne]%plain_name_spec Hrest.
  unfold Os.child_name, Os.dir_prefix, PyStr.startswith. rewrite Hend.
  rewrite prefix_append, substring_append_tail.
  rewrite first_component_append, Hrest, append_nil_r by done.
  by apply String.eqb_neq in Hne as ->.
Qed.

Lemma source_path_backups self name :
  plain_name name = true →
  PyStr.endswith (backups_path self) "/" = false
  ∧ source_path self name = (backups_path self +:+ "/") +:+ name.
Proof.
  intros Hplain.
  destruct (source_path_relative self name (plain_name_relative _ Hplain))
    as (root & Hdir & Hpath & _).
  rewrite Hdir, Hpath. split.
  - by apply (endswith_slash_last root "s").
  - by rewrite !append_assoc.
Qed.

Lemma child_name_blob self name :
  plain_name name = true →
  Os.child_name (backups_path self) (source_path self name) = Some name.
Proof.
  intros Hplain. destruct (source_path_backups self name Hplain) as [Hend ->].
  rewrite <- (append_nil_r name) at 1. by apply child_name_under.
Qed.

Lemma source_path_sidecar self name :
  plain_name name = true →
  source_path self name +:+ ".json" = source_path self (name +:+ ".json").
Proof.
  intros Hplain.
  destruct (source_path_backups self name Hplain) as [_ ->].
  destruct (source_path_backups self _ (plain_name_sidecar _ Hplain))
    as [_ ->].
  by rewrite !append_assoc.
Qed.

Lemma child_name_sidecar self name :
  plain_name name = true →
  Os.child_name (backups_path self) (source_path self name +:+ ".json")
  = Some (name +:+ ".json").
Proof.
  intros Hplain. rewrite source_path_sidecar by done.
  by apply child_name_blob, plain_name_sidecar.
Qed.

(** Blobs with different names have different sidecars. *)
Lemma sidecar_path_inj self name name' :
  plain_name name = true → plain_name name' = true →
  source_path self name +:+ ".json" = source_path self name' +:+ ".json" →
  name = name'.
Proof.
  intros Hplain Hplain'.
  destruct (source_path_backups self name Hplain) as [_ ->].
  destruct (source_path_backups self name' Hplain') as [_ ->].
  intros Heq. apply append_inj_l in Heq.
  by apply (inj (String.append _)) in Heq.
Qed.

Lemma blob_path_inj self name name' :
  plain_name name = true → plain_name name' = true →
  source_path self name = source_path self name' → name = name'.
Proof.
  intros Hplain Hplain' Heq. apply (sidecar_path_inj self); [done..|].
  by rewrite Heq.
Qed.

Lemma blob_not_sidecar self name name' :
  plain_name name = true → plain_name name' = true →
  PyStr.endswith name ".json" = false →
  source_path self name ≠ source_path self name' +:+ ".json".
Proof.
  intros Hplain Hplain' Hblob Heq.
  rewrite source_path_sidecar in Heq by done.
  apply blob_path_inj in Heq; [|done|by apply plain_name_sidecar].
  subst name. by rewrite endswith_append in Hblob.
Qed.

End FolderFacts.

Section RecordThenSelect.

Implicit Types fs : filesystem.

Lemma get_Some_elem {V} k (v : V) (d : PyDict.dict V) :
  PyDict.get k d = Some v → (k, v) ∈ d.
Proof.
  induction d as [|[k' v'] d IH]; simpl; [done|].
  destruct (String.eqb_spec k k') as [->|Hne].
  - intros [= ->]. left.
  - intros Hget. right. by apply IH.
Qed.

Lemma has_excluded_urls_false excluded urls url :
  url ∈ urls →
  (∀ e, e ∈ excluded → PyStr.startswith url e = false) →
  has_excluded_urls excluded urls = false.
Proof.
  intros Hurl Hnone.
  destruct (has_excluded_urls excluded urls) eqn:Hex; [|done].
  destruct (proj1 (has_excluded_urls_spec _ _) Hex url Hurl)
    as (e & He & Hstart).
  by rewrite (Hnone e He) in Hstart.
Qed.

Lemma elem_of_blobs names name :
  name ∈ blobs names ↔ PyStr.endswith name ".json" = false ∧ name ∈ names.
Proof. unfold blobs. by rewrite list_elem_of_filter. Qed.

(** Writing the sidecar of a blob adds no blob to the folder. *)
Lemma blobs_children_insert fs self name content n :
  plain_name name = true →
  n ∈ blobs (Os.children (<[source_path self name +:+ ".json" := content]> fs)
                         (backups_path self))
  ↔ n ∈ blobs (Os.children fs (backups_path self)).
Proof.
  intros Hplain. rewrite !elem_of_blobs, !elem_of_children.
  split; intros (Hblob & p & Hp & Hname); (split; [done|]).
  - destruct (decide (p = source_path self name +:+ ".json")) as [->|Hne].
    + rewrite child_name_sidecar in Hname by done. injection Hname as <-.
      by rewrite endswith_append in Hblob.
    + exists p. by rewrite lookup_insert_ne in Hp.
  - exists p. split; [|done]. rewrite lookup_insert_is_Some.
    destruct (decide (source_path self name +:+ ".json" = p)); auto.
Qed.

Lemma readable_insert_other fs self name content n :
  plain_name name = true → plain_name n = true → n ≠ name →
  readable (<[source_path self name +:+ ".json" := content]> fs)
           (source_path self n +:+ ".json")
  = readable fs (source_path self n +:+ ".json").
Proof.
  intros Hplain Hn Hne. unfold readable. rewrite lookup_insert_ne; [done|].
  intros Heq. by apply sidecar_path_inj in Heq.
Qed.

(** Once the sidecar of a blob holds a document, the selection returns if
    the sidecars of the other blobs can be read. *)
Lemma selection_after_record fs self name doc :
  plain_name name = true →
  forallb
    (λ n, String.eqb n name
          || readable fs (Os.path_join (backups_path self) n +:+ ".json"))
    (blobs (Os.children fs (backups_path self))) = true →
  sidecars_readable
    (<[source_path self name +:+ ".json" := Json doc]> fs)
    (backups_path self)
    (Os.children (<[source_path self name +:+ ".json" := Json doc]> fs)
                 (backups_path self))
  = true.
Proof.
  intros Hplain Hothers. unfold sidecars_readable.
  apply forallb_forall. intros n Hn%list_elem_of_In.
  assert (plain_name n = true) as Hplain_n.
  { apply elem_of_blobs in Hn as [_ Hn]. by eapply children_plain. }
  apply blobs_children_insert in Hn; [|done].
  rewrite forallb_forall in Hothers.
  specialize (Hothers n (proj1 (list_elem_of_In _ _) Hn)).
  change (Os.path_join (backups_path self) n) with (source_path self n)
    in *.
  destruct (String.eqb_spec n name) as [Heq|Hne].
  - rewrite Heq. unfold readable. by rewrite lookup_insert_eq.
  - rewrite readable_insert_other by done. by simpl in Hothers.
Qed.

End RecordThenSelect.

(** X15: recording a blob makes it eligible.  When the blob file is in
    the folder of the backup sources under a plain name that does not end
    in ".json", its sidecar is absent or holds a document, and the
    sidecars of the other blobs hold documents, then the update succeeds
    and, if one of its URLs starts with no excluded prefix, the selection
    on the new file system, without package list or with one whose
    collected set holds the key of the conanfile, returns a list that
    holds the sidecar path and the blob path. *)
Theorem recorded_blob_selected (fs : filesystem) self name conanfile urls
    now url excluded_urls package_list :
  plain_name name = true →
  PyStr.endswith name ".json" = false →
  is_Some (fs !! source_path self name) →
  Os.path_exists fs (source_path self name +:+ ".json") = false
  ∨ readable fs (source_path self name +:+ ".json") = true →
  forallb
    (λ n, String.eqb n name
          || readable fs (Os.path_join (backups_path self) n +:+ ".json"))
    (blobs (Os.children fs (backups_path self))) = true →
  url ∈ urls_to_list urls →
  (∀ e, e ∈ default [] excluded_urls → PyStr.startswith url e = false) →
  package_list = None
  ∨ summary_key_of conanfile ∈ collect_refs package_list →
  ∃ fs' files,
    update_backup_sources_json fs (source_path self name) conanfile urls now
    = Ok fs'
    ∧ get_backup_sources_files_to_upload fs' self excluded_urls package_list
      = Ok files
    ∧ source_path self name +:+ ".json" ∈ files
    ∧ source_path self name ∈ files.
Proof.
  intros Hplain Hblob Hfile Hsidecar Hothers Hurl Hexcl Hsel.
  assert (∃ doc, load_summary fs (source_path self name +:+ ".json") now
                 = Ok doc) as [doc Hdoc].
  { destruct Hsidecar as [Hex|Hr].
    - eexists. by apply load_summary_fresh.
    - apply readable_Some in Hr as [doc Hdoc]. exists doc.
      by apply load_summary_existing. }
  eexists _, _. split; [by apply update_result|].
  set (doc' := merged_doc doc (summary_key_of conanfile) (urls_to_list urls)).
  set (fs' := <[source_path self name +:+ ".json" := Json doc']> fs).
  assert (name ∈ blobs (Os.children fs' (backups_path self))) as Hname.
  { apply blobs_children_insert; [done|]. apply elem_of_blobs.
    split; [done|]. apply elem_of_children.
    exists (source_path self name). split; [done|].
    by apply child_name_blob. }
  pose proof Hname as [_ Hchild]%elem_of_blobs.
  rewrite (get_backup_listed _ _ _ _ _ (listdir_children _ _ _ Hchild)).
  split.
  { apply scan_backups_Ok. split; [|done].
    by apply selection_after_record. }
  rewrite app_nil_l.
  assert (blob_contribution fs' (default [] excluded_urls) package_list
            (collect_refs package_list) (backups_path self) name
          = [source_path self name +:+ ".json"; source_path self name])
    as Hcontribution.
  { unfold blob_contribution.
    change (Os.path_join (backups_path self) name)
      with (source_path self name).
    unfold fs'. rewrite lookup_insert_eq.
    replace (existsb _ (references doc')) with true; [done|].
    symmetry. apply existsb_exists.
    exists (summary_key_of conanfile,
            extend_new
              (default [] (PyDict.get (summary_key_of conanfile)
                                      (references doc)))
              (urls_to_list urls)).
    split.
    - apply list_elem_of_In, get_Some_elem. apply merged_doc_get.
    - simpl. apply qualifies_true. split; [|done].
      apply has_excluded_urls_false with url; [|done].
      apply extend_new_elem_of. by right. }
  subst fs' doc'.
  split; apply list_elem_of_In, in_flat_map; exists name;
    (split; [by apply list_elem_of_In|]);
    rewrite Hcontribution; [left|right; left]; done.
Qed.

Lemma recorded_blob_selected_witness :
  ∃ fs' files,
    update_backup_sources_json broken_fs
      (source_path {| _path := "/r" |} "h1")
      {| conanfile_ref := Some "pkg/1.0" |}
      (OneUrl "http://y/a") 4 = Ok fs'
    ∧ get_backup_sources_files_to_upload fs' {| _path := "/r" |}
        (Some ["http://x/"]) (Some demo_selection) = Ok files
    ∧ source_path {| _path := "/r" |} "h1" +:+ ".json" ∈ files
    ∧ source_path {| _path := "/r" |} "h1" ∈ files.
Proof.
  refine (recorded_blob_selected broken_fs {| _path := "/r" |} "h1"
            {| conanfile_ref := Some "pkg/1.0" |} (OneUrl "http://y/a") 4
            "http://y/a" (Some ["http://x/"]) (Some demo_selection)
            _ _ _ _ _ _ _ _).
  - reflexivity.
  - reflexivity.
  - exists Bytes. vm_compute. reflexivity.
  - left. vm_compute. reflexivity.
  - vm_compute. reflexivity.
  - left.
  - intros e He. apply elem_of_cons in He as [->|He]; [reflexivity|].
    destruct (not_elem_of_nil _ He).
  - right. apply (bool_decide_unpack _). vm_compute. exact I.
Defined.

Section SelectionAfterUpdate.

Implicit Types fs : filesystem.

Lemma elem_of_set {V} k (v : V) (d : PyDict.dict V) r u :
  (r, u) ∈ d →
  (r, u) ∈ PyDict.set k v d ∨ (r = k ∧ PyDict.get k d = Some u).
Proof.
  induction d as [|[k' v'] d IH]; [by intros ?%elem_of_nil|].
  intros [[= -> ->]|Hin]%elem_of_cons; simpl.
  - destruct (String.eqb_spec k k') as [->|Hne]; [by right|].
    left. left.
  - destruct (String.eqb_spec k k') as [->|Hne].
    + left. by right.
    + destruct (IH Hin) as [Hset|[-> Hget]]; [left; by right|by right].
Qed.

Lemma has_excluded_urls_sub excluded urls urls' :
  (∀ url, url ∈ urls → url ∈ urls') →
  has_excluded_urls excluded urls' = true →
  has_excluded_urls excluded urls = true.
Proof.
  intros Hsub. rewrite !has_excluded_urls_spec. intros Hall url Hurl.
  apply Hall, Hsub, Hurl.
Qed.

(** A reference that qualifies still does after the merge of more URLs. *)
Lemma merged_doc_qualifies excluded package_list all_refs doc key urls :
  existsb (λ item, qualifies excluded package_list all_refs item.1 item.2)
          (references doc) = true →
  existsb (λ item, qualifies excluded package_list all_refs item.1 item.2)
          (references (merged_doc doc key urls)) = true.
Proof.
  rewrite !existsb_exists. intros ([ref old] & Hin & Hq).
  apply list_elem_of_In in Hin. simpl in Hq.
  destruct (elem_of_set key
              (extend_new (default [] (PyDict.get key (references doc)))
                          urls)
              _ _ _ Hin) as [Hset|[-> Hget]].
  - exists (ref, old). split; [by apply list_elem_of_In|done].
  - exists (key, extend_new old urls). split.
    + apply list_elem_of_In, get_Some_elem. rewrite merged_doc_get.
      by rewrite Hget.
    + simpl. apply qualifies_true in Hq as [Hexcl Hsel].
      apply qualifies_true. split; [|done].
      destruct (has_excluded_urls excluded (extend_new old urls)) eqn:Hex;
        [|done].
      rewrite (has_excluded_urls_sub _ old _ (λ url Hurl,
                 proj2 (extend_new_elem_of old urls url) (or_introl Hurl))
                 Hex) in Hexcl.
      done.
Qed.

Lemma get_backup_Ok_children fs self excluded_urls package_list files :
  get_backup_sources_files_to_upload fs self excluded_urls package_list
  = Ok files →
  sidecars_readable fs (backups_path self)
    (Os.children fs (backups_path self)) = true
  ∧ files
    = flat_map (blob_contribution fs (default [] excluded_urls) package_list
                  (collect_refs package_list) (backups_path self))
        (blobs (Os.children fs (backups_path self))).
Proof.
  rewrite get_backup_unfold.
  destruct (Os.path_exists fs (backups_path self)) eqn:Hex.
  - destruct (Os.listdir fs (backups_path self)) as [names|e] eqn:Hnames;
      simpl; [|done].
    apply listdir_Ok_children in Hnames as ->.
    by intros [? ->]%scan_backups_Ok.
  - rewrite (path_exists_false_children _ _ Hex). by intros [= <-].
Qed.

Lemma blob_contribution_elem fs excluded package_list all_refs d n file :
  file ∈ blob_contribution fs excluded package_list all_refs d n →
  file = Os.path_join d n +:+ ".json" ∨ file = Os.path_join d n.
Proof.
  unfold blob_contribution.
  destruct (fs !! _) as [[|doc]|]; [by intros ?%elem_of_nil| |
                                    by intros ?%elem_of_nil].
  destruct (existsb _ _); [|by intros ?%elem_of_nil].
  set_solver.
Qed.

End SelectionAfterUpdate.

(** X16: recording more URLs for a blob of the folder removes nothing
    from the selection.  When the selection returns, it still returns
    after a successful update of the sidecar of a plainly named blob, with
    the same excluded prefixes and package list, and every path it
    returned before is returned again. *)
Theorem update_keeps_selection (fs : filesystem) self name conanfile urls
    now excluded_urls package_list files fs' :
  plain_name name = true →
  get_backup_sources_files_to_upload fs self excluded_urls package_list
  = Ok files →
  update_backup_sources_json fs (source_path self name) conanfile urls now
  = Ok fs' →
  ∃ files',
    get_backup_sources_files_to_upload fs' self excluded_urls package_list
    = Ok files'
    ∧ ∀ file, file ∈ files → file ∈ files'.
Proof.
  intros Hplain [Hreadable ->]%get_backup_Ok_children.
  rewrite update_unfold.
  destruct (load_summary fs (source_path self name +:+ ".json") now)
    as [doc|e] eqn:Hdoc; [|done].
  simpl. intros [= <-].
  assert (name +:+ ".json"
          ∈ Os.children
              (<[source_path self name +:+ ".json" :=
                   Json (merged_doc doc (summary_key_of conanfile)
                                    (urls_to_list urls))]> fs)
              (backups_path self)) as Hchild.
  { apply elem_of_children. exists (source_path self name +:+ ".json").
    split; [by rewrite lookup_insert_eq|]. by apply child_name_sidecar. }
  rewrite (get_backup_listed _ _ _ _ _ (listdir_children _ _ _ Hchild)).
  unfold sidecars_readable in Hreadable. rewrite forallb_forall in Hreadable.
  eexists. split.
  - apply scan_backups_Ok. split; [|done].
    apply selection_after_record; [done|].
    apply forallb_forall. intros n Hn. by rewrite (Hreadable n Hn), orb_true_r.
  - rewrite app_nil_l. intros file.
    rewrite !list_elem_of_In, !in_flat_map.
    intros (n & Hn%list_elem_of_In & Hfile%list_elem_of_In).
    exists n. split.
    { apply list_elem_of_In. by apply blobs_children_insert. }
    apply list_elem_of_In.
    assert (plain_name n = true) as Hplain_n.
    { apply elem_of_blobs in Hn as [_ Hn]. by eapply children_plain. }
    unfold blob_contribution in *.
    change (Os.path_join (backups_path self) n) with (source_path self n)
      in *.
    destruct (decide (n = name)) as [Heq|Hne].
    + rewrite Heq in *. rewrite lookup_insert_eq.
      destruct (fs !! (source_path self name +:+ ".json"))
        as [[|doc0]|] eqn:Hdoc0;
        [by apply elem_of_nil in Hfile| |by apply elem_of_nil in Hfile].
      rewrite (load_summary_existing _ _ _ _ Hdoc0) in Hdoc.
      injection Hdoc as ->.
      destruct (existsb _ (references doc)) eqn:Hex;
        [|by apply elem_of_nil in Hfile].
      by rewrite (merged_doc_qualifies _ _ _ _ _ _ Hex).
    + rewrite lookup_insert_ne; [done|].
      intros Heq. by apply sidecar_path_inj in Heq.
Qed.

Lemma update_keeps_selection_witness :
  ∃ files',
    get_backup_sources_files_to_upload
      (<["/r/s/h2.json" :=
           Json (Summary [("unknown", ["http://x/b"; "http://x/c"]);
                          ("pkg/1.0", ["http://x/b"; "http://y/b"]);
                          ("dep/2.0", ["http://y/b"])] 2)]> demo_fs)
      {| _path := "/r" |} (Some ["http://x/"]) (Some demo_selection)
    = Ok files'
    ∧ ∀ file, file ∈ ["/r/s/h2.json"; "/r/s/h2"] → file ∈ files'.
Proof.
  refine (update_keeps_selection demo_fs {| _path := "/r" |} "h2"
            {| conanfile_ref := None |} (OneUrl "http://x/c") 8
            (Some ["http://x/"]) (Some demo_selection)
            ["/r/s/h2.json"; "/r/s/h2"] _ _ _ _).
  - reflexivity.
  - vm_compute. reflexivity.
  - vm_compute. reflexivity.
Defined.

Section SelectionNoDup.

Implicit Types fs : filesystem.

Lemma blob_contribution_NoDup fs excluded package_list all_refs d n :
  NoDup (blob_contribution fs excluded package_list all_refs d n).
Proof.
  unfold blob_contribution.
  destruct (fs !! _) as [[|doc]|]; [constructor| |constructor].
  destruct (existsb _ _); [|constructor].
  apply NoDup_cons. split; [|apply NoDup_singleton].
  intros Heq%list_elem_of_singleton. symmetry in Heq.
  by apply (append_ne_self (Os.path_join d n) ".json").
Qed.

Lemma flat_map_contribution_NoDup fs self excluded package_list all_refs
    names :
  NoDup names →
  (∀ n, n ∈ names →
     plain_name n = true ∧ PyStr.endswith n ".json" = false) →
  NoDup (flat_map (blob_contribution fs excluded package_list all_refs
                     (backups_path self)) names).
Proof.
  induction 1 as [|n names Hn Hnames IH]; intros Hall; simpl;
    [constructor|].
  destruct (Hall n) as [Hplain Hblob]; [left|].
  apply NoDup_app. split_and!.
  - apply blob_contribution_NoDup.
  - intros file Hfile%blob_contribution_elem.
    rewrite list_elem_of_In, in_flat_map.
    intros (n' & Hn'%list_elem_of_In & Hfile'%list_elem_of_In).
    apply blob_contribution_elem in Hfile'.
    destruct (Hall n') as [Hplain' Hblob']; [by right|].
    change (Os.path_join (backups_path self) n) with (source_path self n)
      in *.
    change (Os.path_join (backups_path self) n') with (source_path self n')
      in *.
    assert (n ≠ n') as Hne by (by intros ->).
    destruct Hfile as [->| ->], Hfile' as [Heq|Heq].
    + by apply sidecar_path_inj in Heq.
    + symmetry in Heq. by apply blob_not_sidecar in Heq.
    + by apply blob_not_sidecar in Heq.
    + by apply blob_path_inj in Heq.
  - apply IH. intros n' Hn'. apply Hall. by right.
Qed.

End SelectionNoDup.

(** X17: the selection returns no path twice: the sidecar paths and the
    blob paths of the blobs it selects are all different. *)
Theorem selection_NoDup (fs : filesystem) self excluded_urls package_list
    files :
  get_backup_sources_files_to_upload fs self excluded_urls package_list
  = Ok files →
  NoDup files.
Proof.
  intros [_ ->]%get_backup_Ok_children.
  apply flat_map_contribution_NoDup.
  - apply NoDup_filter, NoDup_remove_dups.
  - intros n [Hblob Hn]%elem_of_blobs. split; [|done].
    by eapply children_plain.
Qed.

Lemma selection_NoDup_witness :
  NoDup ["/r/s/h1.json"; "/r/s/h1"; "/r/s/h2.json"; "/r/s/h2"].
Proof.
  refine (selection_NoDup demo_fs {| _path := "/r" |} None None
            ["/r/s/h1.json"; "/r/s/h1"; "/r/s/h2.json"; "/r/s/h2"] _).
  vm_compute. reflexivity.
Defined.

(** X18: cached artifacts and lock files are told apart by their names:
    for hashes that do not start with "/", two URLs have the same cached
    path exactly when they have the same hash, and for lock identifiers
    that do not start with "/", equal lock paths, which are also the keys
    of the table of thread locks, mean equal identifiers. *)
Theorem cached_and_lock_paths_inj (compute_sha256 : string → string) self
    url url' lock_id lock_id' :
  PyStr.startswith (compute_sha256 url) "/" = false →
  PyStr.startswith (compute_sha256 url') "/" = false →
  PyStr.startswith lock_id "/" = false →
  PyStr.startswith lock_id' "/" = false →
  ((cached_path compute_sha256 self url).1
   = (cached_path compute_sha256 self url').1
   ↔ compute_sha256 url = compute_sha256 url')
  ∧ (lock_path self lock_id = lock_path self lock_id' → lock_id = lock_id').
Proof.
  intros Hsha Hsha' Hid Hid'.
  destruct (source_path_relative self lock_id Hid)
    as (root & _ & _ & Hcached & Hlock).
  rewrite (Hcached _ _ Hsha), (Hcached _ _ Hsha'), (Hlock _ Hid),
    (Hlock _ Hid').
  split; [split|].
  - intros Heq. by do 2 apply (inj (String.append _)) in Heq.
  - by intros ->.
  - intros Heq. by do 2 apply (inj (String.append _)) in Heq.
Qed.

Lemma cached_and_lock_paths_inj_witness :
  ((cached_path (λ url, "h" +:+ url) {| _path := "/r" |} "a").1
   = (cached_path (λ url, "h" +:+ url) {| _path := "/r" |} "b").1
   ↔ "h" +:+ "a" = "h" +:+ "b")
  ∧ (lock_path {| _path := "/r" |} "x" = lock_path {| _path := "/r" |} "y"
     → "x" = "y").
Proof.
  refine (cached_and_lock_paths_inj (λ url, "h" +:+ url) {| _path := "/r" |}
            "a" "b" "x" "y" _ _ _ _);
    reflexivity.
Defined.

(** X19: the selection returns a list exactly when the folder of the
    backup sources does not exist, or is a directory in which every blob
    has a sidecar that holds a document; in every other case it raises. *)
Theorem selection_returns_iff (fs : filesystem) self excluded_urls
    package_list :
  (∃ files,
     get_backup_sources_files_to_upload fs self excluded_urls package_list
     = Ok files)
  ↔ Os.path_exists fs (backups_path self) = false
    ∨ (Os.path_isdir fs (backups_path self) = true
       ∧ sidecars_readable fs (backups_path self)
           (Os.children fs (backups_path self)) = true).
Proof.
  rewrite get_backup_unfold. unfold Os.listdir.
  destruct (Os.path_exists fs (backups_path self)) eqn:Hex.
  - destruct (Os.path_isdir fs (backups_path self)); simpl.
    + split.
      * intros [files [Hr _]%scan_backups_Ok]. by right.
      * intros [?|[_ Hr]]; [done|]. eexists. apply scan_backups_Ok.
        by split.
    + split; [by intros [files ?]|]. by intros [?|[? _]].
  - split; [by left|]. by eexists.
Qed.
